(** * AccuWeather MCP server: the provider client and the response shaping

    A shallow embedding of [src/accuweather-client.ts] (class
    [AccuWeatherClient]) and of the two tool handlers of the server entry
    point, followed by the properties of the specification stated over it.

    The program is JavaScript: values are dynamically typed, every
    [throw] is an [Error] with a message, and the only effects are the
    outbound [fetch] calls.  The embedding keeps all three: a [value] type
    with [typeof]/truthiness, an [error] type with one constructor per
    [throw] site, and a monad that logs every request and advances a clock. *)

From Stdlib Require Import ZArith QArith Lia List String Ascii Bool.
Import ListNotations.
Local Open Scope string_scope.
Local Open Scope Z_scope.

(** ** JavaScript values *)

Module JS.

(** A JavaScript number is an IEEE-754 double.  The code only compares
    numbers with integer constants and truncates them, and both operations
    are exact on doubles, so a finite double is represented by the rational
    it denotes (every finite double is one; [+0] and [-0] are both [0]). *)
Inductive number : Type :=
| NaN
| PosInfinity
| NegInfinity
| Fin (q : Q).

Definition of_Z (z : Z) : number := Fin (inject_Z z).

Definition Qlt_bool (a b : Q) : bool := negb (Qle_bool b a).

(** [a < b]; any comparison with [NaN] is [false]. *)
Definition lt (a b : number) : bool :=
  match a, b with
  | NaN, _ | _, NaN => false
  | NegInfinity, NegInfinity => false
  | NegInfinity, _ => true
  | _, NegInfinity => false
  | PosInfinity, _ => false
  | Fin _, PosInfinity => true
  | Fin x, Fin y => Qlt_bool x y
  end.

(** [a > b] is [b < a]. *)
Definition gt (a b : number) : bool := lt b a.

Definition isNaN (n : number) : bool :=
  match n with NaN => true | _ => false end.

(** ECMAScript ToIntegerOrInfinity: [NaN] becomes 0, the infinities stay,
    a finite number is truncated toward zero. *)
Inductive integer_or_infinity : Type :=
| Int (z : Z)
| PlusInf
| MinusInf.

Definition ToIntegerOrInfinity (n : number) : integer_or_infinity :=
  match n with
  | NaN => Int 0
  | PosInfinity => PlusInf
  | NegInfinity => MinusInf
  | Fin q => Int (Z.quot (Qnum q) (Zpos (Qden q)))
  end.

(** Values as they come out of [JSON.parse] or are passed by a caller. *)
#[local] Set Warnings "-register-all".
Inductive value : Type :=
| VUndefined
| VNull
| VBool (b : bool)
| VNum (n : number)
| VStr (s : string)
| VArr (elems : list value)
| VObj (props : list (string * value)).

Definition typeof (v : value) : string :=
  match v with
  | VUndefined => "undefined"
  | VNull => "object"
  | VBool _ => "boolean"
  | VNum _ => "number"
  | VStr _ => "string"
  | VArr _ => "object"
  | VObj _ => "object"
  end.

(** ToBoolean: what [!v], [a || b] and [if (v)] look at. *)
Definition truthy (v : value) : bool :=
  match v with
  | VUndefined | VNull => false
  | VBool b => b
  | VNum NaN => false
  | VNum (Fin q) => negb (Qeq_bool q 0)
  | VNum _ => true
  | VStr s => negb (s =? "")%string
  | VArr _ | VObj _ => true
  end.

(** [a || b] *)
Definition or_else (a b : value) : value := if truthy a then a else b.

(** [a ?? b] *)
Definition nullish (a b : value) : value :=
  match a with
  | VUndefined | VNull => b
  | _ => a
  end.

(** A parameter with a default, [f(x = d)]: only [undefined] takes it. *)
Definition default_param (v d : value) : value :=
  match v with
  | VUndefined => d
  | _ => v
  end.

Definition isArray (v : value) : bool :=
  match v with VArr _ => true | _ => false end.

(** The number held by a value whose [typeof] is ['number']; it is only
    applied behind such a check. *)
Definition number_of (v : value) : number :=
  match v with VNum n => n | _ => NaN end.

(** The elements of an array, and its [length]. *)
Definition elements (v : value) : list value :=
  match v with VArr l => l | _ => [] end.

Definition array_length (v : value) : Z := Z.of_nat (List.length (elements v)).

Fixpoint lookup (k : string) (props : list (string * value)) : value :=
  match props with
  | [] => VUndefined
  | (k', v) :: rest => if (k' =? k)%string then v else lookup k rest
  end.

(** The object has an own property of this name. *)
Definition has_key (k : string) (props : list (string * value)) : bool :=
  existsb (fun p => (fst p =? k)%string) props.

(** Whether ToString, which a template literal applies to each [${v}],
    returns for [v].  Every primitive has a string form.  A plain object
    has one, [[object Object]], through the inherited [toString], unless an
    own property [toString] hides it: that one is data, not a function,
    and the inherited [valueOf] returns the object itself, so the conversion
    throws.  An array joins the string forms of its elements, [undefined]
    and [null] counting as empty. *)
Fixpoint converts (v : value) : bool :=
  match v with
  | VArr elems => forallb converts elems
  | VObj props => negb (has_key "toString" props)
  | _ => true
  end.

(** [arr[i]]: out of range (also a negative index) reads [undefined]. *)
Definition index (l : list value) (i : Z) : value :=
  if i <? 0 then VUndefined else nth (Z.to_nat i) l VUndefined.

(** [Array.prototype.slice(0, end)] on an array of length [len]:
    the start is 0; the end is ToIntegerOrInfinity(end), counted from the
    back when negative, and clamped to [0, len]. *)
Definition slice {A : Type} (l : list A) (end_ : number) : list A :=
  let len := Z.of_nat (List.length l) in
  let final :=
    match ToIntegerOrInfinity end_ with
    | MinusInf => 0
    | PlusInf => len
    | Int z => if z <? 0 then Z.max (len + z) 0 else Z.min z len
    end in
  firstn (Z.to_nat final) l.

(** [String.prototype.split(sep)] for a one-character separator: the
    pieces between the occurrences of [sep], never an empty list. *)
Fixpoint split (sep : ascii) (s : string) : list string :=
  match s with
  | EmptyString => [EmptyString]
  | String c rest =>
      if Ascii.eqb c sep then EmptyString :: split sep rest
      else match split sep rest with
           | [] => [String c EmptyString]
           | piece :: pieces => String c piece :: pieces
           end
  end.

End JS.
Import JS.

(** ** Errors

    Every failure of the program is a thrown [Error].  One constructor per
    [throw] site, with the message template of the source and the values
    interpolated into it; the last three are errors raised by the runtime. *)

Inductive error : Type :=
| InvalidLatitude (lat : value)
    (* `Invalid latitude: ${lat}` *)
| InvalidLongitude (lon : value)
    (* `Invalid longitude: ${lon}` *)
| InvalidLocationKey
    (* 'Invalid location key' *)
| InvalidDays (days : value)
    (* `Invalid number of days: ${days}. Must be between 1 and 15.` *)
| ApiError (status : Z) (detail : string)
    (* `AccuWeather API error (${response.status}): ${errorText || response.statusText}` *)
| MissingLocationKey
    (* 'Invalid API response: missing location key' *)
| MissingCurrentConditions
    (* 'Invalid API response: missing current conditions' *)
| MissingDailyForecasts
    (* 'Invalid API response: missing daily forecasts' *)
| RequestTimeout
    (* 'Request timeout: AccuWeather API took too long to respond (30s limit)' *)
| LocationDetailsFailed (status : Z)
    (* `Failed to get location details: ${locationResponse.status}` *)
| FetchError (name message : string)
    (* rejection of fetch itself: a network failure, or the abort *)
| JsonError
    (* rejection of response.json(): the body is not JSON *)
| TypeError (reading : string).
    (* property read on undefined or null, a call of a non-function, or a
       conversion to a string that has no method to call *)

(** [error.name], which the [catch] blocks of the client inspect. *)
Definition error_name (e : error) : string :=
  match e with
  | FetchError name _ => name
  | JsonError => "SyntaxError"
  | TypeError _ => "TypeError"
  | _ => "Error"
  end.

(** 'Cannot convert object to primitive value': what ToString throws for a
    value that does not convert. *)
Definition ConversionError : error := TypeError "toString".

(** What fetch rejects with when its abort signal fires. *)
Definition AbortError : error := FetchError "AbortError" "The user aborted a request.".

(** The error taxonomy of the specification (section 7), read off the
    messages: argument checks, the 30 s limit, a non-success status, and a
    success whose body lacks the expected field.  Runtime errors passed
    through unchanged are outside the taxonomy. *)
Inductive error_kind : Type :=
| InvalidArgument
| UpstreamTimeout
| UpstreamError
| UpstreamProtocolError
| Unclassified.

Definition kind (e : error) : error_kind :=
  match e with
  | InvalidLatitude _ | InvalidLongitude _ | InvalidLocationKey | InvalidDays _ =>
      InvalidArgument
  | RequestTimeout => UpstreamTimeout
  | ApiError _ _ | LocationDetailsFailed _ => UpstreamError
  | MissingLocationKey | MissingCurrentConditions | MissingDailyForecasts =>
      UpstreamProtocolError
  | FetchError _ _ | JsonError | TypeError _ => Unclassified
  end.

(** The status code an [UpstreamError] carries, and the body or status text
    it carries when it does. *)
Definition carried_status (e : error) : option Z :=
  match e with
  | ApiError status _ | LocationDetailsFailed status => Some status
  | _ => None
  end.

Definition carried_detail (e : error) : option string :=
  match e with
  | ApiError _ detail => Some detail
  | _ => None
  end.

Inductive result (A : Type) : Type :=
| Ok (a : A)
| Err (e : error).
Arguments Ok {A} a.
Arguments Err {A} e.

(** ** The provider and the requests sent to it *)

(** The four URLs the client builds, with the values interpolated into
    them (base URL and API key are fixed at construction). *)
Inductive endpoint : Type :=
| GeopositionSearch (lat lon : value)
    (* /locations/v1/cities/geoposition/search?apikey=..&q=${lat},${lon}&language=en-us *)
| CurrentConditions (locationKey : value)
    (* /currentconditions/v1/${locationKey}?apikey=..&details=true&language=en-us *)
| DailyForecast (days locationKey : value)
    (* /forecasts/v1/daily/${days}day/${locationKey}?apikey=..&details=true&metric=true&language=en-us *)
| LocationDetails (locationKey : value).
    (* /locations/v1/${locationKey}?apikey=..&language=en-us *)

(** A request as logged: the URL and whether an abort signal was passed. *)
Record request : Type := Request {
  url : endpoint;
  has_signal : bool
}.

(** An HTTP response, as [fetch] resolves to it when the status line and the
    headers are in.  The body is read afterwards, by [response.text()] or
    [response.json()], which takes [body_ms] more milliseconds.  [text] is
    what [response.text()] resolves to and [json] what [response.json()]
    resolves to, [None] when the body does not parse. *)
Record response : Type := Response {
  status : Z;
  statusText : string;
  text : string;
  json : option value;
  body_ms : N
}.

(** [response.ok]: the status is in the range 200-299. *)
Definition ok (r : response) : bool := (200 <=? status r) && (status r <=? 299).

Inductive reply : Type :=
| Responds (r : response)
| Fails (name message : string).

(** What the provider does with a request: after [latency] milliseconds
    [fetch] settles, with the response (its body still to be read) or with
    a failure. *)
Record outcome : Type := Outcome {
  latency : N;
  answer : reply
}.

Definition provider : Type := endpoint -> outcome.

(** ** A monad for asynchronous code

    State: the clock in milliseconds and the requests issued so far, oldest
    first.  A failure keeps the state, as a rejected promise does. *)

Record world : Type := World {
  now : N;
  calls : list request
}.

Definition M (A : Type) : Type := world -> result A * world.

Definition ret {A : Type} (a : A) : M A := fun w => (Ok a, w).

Definition throw {A : Type} (e : error) : M A := fun w => (Err e, w).

Definition bind {A B : Type} (m : M A) (f : A -> M B) : M B :=
  fun w =>
    match m w with
    | (Ok a, w') => f a w'
    | (Err e, w') => (Err e, w')
    end.

Notation "x <- m ;; k" := (bind m (fun x => k))
  (at level 61, m at next level, right associativity).

(** [try { body } catch (error) { handler }] *)
Definition try_catch {A : Type} (body : M A) (handler : error -> M A) : M A :=
  fun w =>
    match body w with
    | (Ok a, w') => (Ok a, w')
    | (Err e, w') => handler e w'
    end.

(** Lift a result that needs no state: an expression that may throw. *)
Definition lift {A : Type} (r : result A) : M A := fun w => (r, w).

(** One [${v}] of a template literal: the value is converted to a string,
    which throws when it does not convert.  The text itself is not kept:
    the errors carry the values their messages are built from. *)
Definition interpolate (v : value) : M unit :=
  if converts v then ret tt else throw ConversionError.

(** [Promise.all([a, b])]: both calls are started, [a] first, at the same
    instant, and their requests go out in that order.  It fulfils when both
    have, and rejects with the rejection that comes first in time ([a]'s on
    a tie, as for two rejections settled in the same turn). *)
Definition promise_all {A B : Type} (a : M A) (b : M B) : M (A * B) :=
  fun w =>
    let (ra, wa) := a w in
    let (rb, wb) := b (World (now w) (calls wa)) in
    match ra, rb with
    | Ok x, Ok y => (Ok (x, y), World (N.max (now wa) (now wb)) (calls wb))
    | Err e, Ok _ => (Err e, World (now wa) (calls wb))
    | Ok _, Err e => (Err e, World (now wb) (calls wb))
    | Err e1, Err e2 =>
        if (now wa <=? now wb)%N then (Err e1, World (now wa) (calls wb))
        else (Err e2, World (now wb) (calls wb))
    end.

(** Property read [v.name] on a data value.  Reading from [undefined] or
    [null] throws; an object yields the property or [undefined]; arrays and
    strings have [length]; nothing else has data properties. *)
Definition get (v : value) (name : string) : result value :=
  match v with
  | VUndefined | VNull => Err (TypeError name)
  | VObj props => Ok (lookup name props)
  | VArr l => Ok (if (name =? "length")%string then VNum (of_Z (Z.of_nat (List.length l))) else VUndefined)
  | VStr s => Ok (if (name =? "length")%string then VNum (of_Z (Z.of_nat (String.length s))) else VUndefined)
  | _ => Ok VUndefined
  end.

(** Optional chaining [v?.name]. *)
Definition get_opt (v : value) (name : string) : result value :=
  match v with
  | VUndefined | VNull => Ok VUndefined
  | _ => get v name
  end.

(** ** The client: [class AccuWeatherClient] *)

Module AccuWeatherClient.

Section Client.

(** The provider the client talks to. *)
Variable net : provider.

(** [setTimeout(() => controller.abort(), 30000)] *)
Definition timeout_ms : N := 30000%N.

(** [await fetch(url, { .., signal })].  The request is logged.  With a
    signal whose abort is due after [t] ms, a response due at [t] ms or
    later is replaced by the abort (on a tie the timer is taken to fire
    first); without a signal the response is awaited however long it takes.
    The callers clear the timer as soon as [fetch] has settled. *)
Definition fetch (u : endpoint) (signal : option N) : M response :=
  fun w =>
    let o := net u in
    let sent := (calls w ++ [Request u (match signal with Some _ => true | None => false end)])%list in
    let deliver :=
      match answer o with
      | Responds r => (Ok r, World (now w + latency o)%N sent)
      | Fails name message => (Err (FetchError name message), World (now w + latency o)%N sent)
      end in
    match signal with
    | Some t => if (t <=? latency o)%N then (Err AbortError, World (now w + t)%N sent) else deliver
    | None => deliver
    end.

(** Reading the body of a response: the clock advances by the time it
    takes.  The timer of the caller has been cleared by then, so nothing
    limits it. *)
Definition read_body (r : response) : M unit :=
  fun w => (Ok tt, World (now w + body_ms r)%N (calls w)).

(** [await response.text()] *)
Definition response_text (r : response) : M string :=
  _ <- read_body r ;;
  ret (text r).

(** [await response.json()] *)
Definition response_json (r : response) : M value :=
  _ <- read_body r ;;
  match json r with
  | Some v => ret v
  | None => throw JsonError
  end.

(** [errorText || response.statusText] *)
Definition text_or (errorText fallback : string) : string :=
  if (errorText =? "")%string then fallback else errorText.

(** The [catch] block shared by the three methods: an abort becomes the
    timeout error, anything else is thrown again. *)
Definition on_abort {A : Type} (e : error) : M A :=
  if (error_name e =? "AbortError")%string then throw RequestTimeout else throw e.

(** [typeof x !== 'number' || isNaN(x) || x < -bound || x > bound] *)
Definition invalid_coordinate (x : value) (bound : Z) : bool :=
  match x with
  | VNum n => isNaN n || lt n (of_Z (- bound)) || gt n (of_Z bound)
  | _ => true
  end.

(** [!locationKey || typeof locationKey !== 'string'] *)
Definition invalid_key (locationKey : value) : bool :=
  negb (truthy locationKey) || negb (typeof locationKey =? "string")%string.

(** [typeof days !== 'number' || days < 1 || days > 15] *)
Definition invalid_days (days : value) : bool :=
  match days with
  | VNum n => lt n (of_Z 1) || gt n (of_Z 15)
  | _ => true
  end.

(** [async getLocationKey(lat, lon)] *)
Definition getLocationKey (lat lon : value) : M value :=
  if invalid_coordinate lat 90 then
    _ <- interpolate lat ;;
    throw (InvalidLatitude lat)
  else
  if invalid_coordinate lon 180 then
    _ <- interpolate lon ;;
    throw (InvalidLongitude lon)
  else
  try_catch
    (response <- fetch (GeopositionSearch lat lon) (Some timeout_ms) ;;
     if negb (ok response) then
       errorText <- response_text response ;;
       throw (ApiError (status response) (text_or errorText (statusText response)))
     else
       data <- response_json response ;;
       if negb (truthy data) then throw MissingLocationKey else
       key <- lift (get data "Key") ;;
       if negb (truthy key) then throw MissingLocationKey else
       (* the template of console.log: ${data.Key}, ${data.LocalizedName},
          ${data.Country.LocalizedName}, each read and converted in turn *)
       _ <- interpolate key ;;
       name <- lift (get data "LocalizedName") ;;
       _ <- interpolate name ;;
       country <- lift (get data "Country") ;;
       countryName <- lift (get country "LocalizedName") ;;
       _ <- interpolate countryName ;;
       ret key)
    on_abort.

(** [async getCurrentConditions(locationKey)] *)
Definition getCurrentConditions (locationKey : value) : M value :=
  if invalid_key locationKey then throw InvalidLocationKey else
  try_catch
    (response <- fetch (CurrentConditions locationKey) (Some timeout_ms) ;;
     if negb (ok response) then
       errorText <- response_text response ;;
       throw (ApiError (status response) (text_or errorText (statusText response)))
     else
       data <- response_json response ;;
       if negb (truthy data) || negb (isArray data) || (array_length data =? 0) then
         throw MissingCurrentConditions
       else
         ret (index (elements data) 0))
    on_abort.

(** [async getForecast(locationKey, days = 5)] *)
Definition getForecast (locationKey days : value) : M value :=
  let days := default_param days (VNum (of_Z 5)) in
  if invalid_key locationKey then throw InvalidLocationKey else
  if invalid_days days then
    _ <- interpolate days ;;
    throw (InvalidDays days)
  else
  try_catch
    (response <- fetch (DailyForecast days locationKey) (Some timeout_ms) ;;
     if negb (ok response) then
       errorText <- response_text response ;;
       throw (ApiError (status response) (text_or errorText (statusText response)))
     else
       data <- response_json response ;;
       if negb (truthy data) then throw MissingDailyForecasts else
       forecasts <- lift (get data "DailyForecasts") ;;
       if negb (truthy forecasts) || negb (isArray forecasts) then
         throw MissingDailyForecasts
       else
         ret (VArr (slice (elements forecasts) (number_of days))))
    on_abort.

(** [async getWeatherForecast(lat, lon, days = 5)] *)
Definition getWeatherForecast (lat lon days : value) : M value :=
  let days := default_param days (VNum (of_Z 5)) in
  locationKey <- getLocationKey lat lon ;;
  both <- promise_all (getCurrentConditions locationKey) (getForecast locationKey days) ;;
  let (current, forecast) := (both : value * value) in
  locationResponse <- fetch (LocationDetails locationKey) None ;;
  if negb (ok locationResponse) then
    throw (LocationDetailsFailed (status locationResponse))
  else
    location <- response_json locationResponse ;;
    ret (VObj [("location", location); ("current", current); ("forecast", forecast)]).

End Client.

End AccuWeatherClient.
Import AccuWeatherClient.

(** ** The tool handlers and the response shaping

    The handlers are the two callbacks registered with [server.tool] in the
    server entry point.  The part of each that builds the [response] object
    from the client's result is pure; it is given the name the
    specification uses for it. *)

Definition rbind {A B : Type} (r : result A) (f : A -> result B) : result B :=
  match r with
  | Ok a => f a
  | Err e => Err e
  end.

Notation "'let*' x := r 'in' k" := (rbind r (fun x => k))
  (at level 61, x name, r at next level, right associativity).

(** A chain of property reads, [v.a.b.c]. *)
Fixpoint path (v : value) (names : list string) : result value :=
  match names with
  | [] => Ok v
  | name :: rest => let* v' := get v name in path v' rest
  end.

(** [arr.map(f)] with a callback that may throw: left to right, stopping
    at the first exception. *)
Fixpoint map_result (f : value -> result value) (l : list value) : result (list value) :=
  match l with
  | [] => Ok []
  | x :: rest =>
      let* y := f x in
      let* ys := map_result f rest in
      Ok (y :: ys)
  end.

(** [v.split('T')[0]] *)
Definition split_T_first (v : value) : result value :=
  match v with
  | VStr s =>
      match split "T"%char s with
      | piece :: _ => Ok (VStr piece)
      | [] => Ok VUndefined
      end
  | _ => Err (TypeError "split")
  end.

(** The callback of [data.forecast.map]. *)
Definition shape_day (day : value) : result value :=
  let* Date := get day "Date" in
  let* date := split_T_first Date in
  let* max_temp := path day ["Temperature"; "Maximum"; "Value"] in
  let* min_temp := path day ["Temperature"; "Minimum"; "Value"] in
  let* temp_unit := path day ["Temperature"; "Maximum"; "Unit"] in
  let* day_conditions := path day ["Day"; "IconPhrase"] in
  let* day_precipitation_probability := path day ["Day"; "PrecipitationProbability"] in
  let* night_conditions := path day ["Night"; "IconPhrase"] in
  let* night_precipitation_probability := path day ["Night"; "PrecipitationProbability"] in
  let* wind_speed := path day ["Day"; "Wind"; "Speed"; "Value"] in
  let* wind_unit := path day ["Day"; "Wind"; "Speed"; "Unit"] in
  Ok (VObj [("date", date);
            ("max_temp", max_temp);
            ("min_temp", min_temp);
            ("temp_unit", temp_unit);
            ("day_conditions", day_conditions);
            ("day_precipitation_probability", day_precipitation_probability);
            ("night_conditions", night_conditions);
            ("night_precipitation_probability", night_precipitation_probability);
            ("wind_speed", wind_speed);
            ("wind_unit", wind_unit)]).

(** [data.forecast.map(..)]: [map] exists on arrays only. *)
Definition map_forecast (forecast : value) : result (list value) :=
  match forecast with
  | VArr l => map_result shape_day l
  | _ => Err (TypeError "map")
  end.

(** The forecast handler from [const forecast = ..] to [const response = ..]. *)
Definition shapeForecastResponse (lat lon days data : value) : result value :=
  let* data_forecast := get data "forecast" in
  let* forecast := map_forecast data_forecast in
  let* name := path data ["location"; "LocalizedName"] in
  let* country := path data ["location"; "Country"; "LocalizedName"] in
  let* area := path data ["location"; "AdministrativeArea"] in
  let* region := get_opt area "LocalizedName" in
  let* temperature := path data ["current"; "Temperature"; "Metric"; "Value"] in
  let* temp_unit := path data ["current"; "Temperature"; "Metric"; "Unit"] in
  let* conditions := path data ["current"; "WeatherText"] in
  let* humidity := path data ["current"; "RelativeHumidity"] in
  let* wind_speed := path data ["current"; "Wind"; "Speed"; "Metric"; "Value"] in
  let* wind_unit := path data ["current"; "Wind"; "Speed"; "Metric"; "Unit"] in
  let* wind_direction := path data ["current"; "Wind"; "Direction"; "Localized"] in
  let* start_date := get (index forecast 0) "date" in
  let* end_date := get (index forecast (Z.of_nat (List.length forecast) - 1)) "date" in
  Ok (VObj [("location", VObj [("latitude", lat);
                               ("longitude", lon);
                               ("name", name);
                               ("country", country);
                               ("region", region)]);
            ("current", VObj [("temperature", temperature);
                              ("temp_unit", temp_unit);
                              ("conditions", conditions);
                              ("humidity", humidity);
                              ("wind_speed", wind_speed);
                              ("wind_unit", wind_unit);
                              ("wind_direction", wind_direction)]);
            ("period", VObj [("days", days);
                             ("start_date", start_date);
                             ("end_date", end_date)]);
            ("forecast", VArr forecast);
            ("data_source", VStr "AccuWeather API")]).

(** The current-conditions handler's [const response = ..]. *)
Definition shapeCurrentConditionsResponse (lat lon current : value) : result value :=
  let* temperature := path current ["Temperature"; "Metric"; "Value"] in
  let* temp_unit := path current ["Temperature"; "Metric"; "Unit"] in
  let* conditions := path current ["WeatherText"] in
  let* humidity := path current ["RelativeHumidity"] in
  let* wind_speed := path current ["Wind"; "Speed"; "Metric"; "Value"] in
  let* wind_unit := path current ["Wind"; "Speed"; "Metric"; "Unit"] in
  let* wind_direction := path current ["Wind"; "Direction"; "Localized"] in
  let* has_precipitation := get current "HasPrecipitation" in
  let* PrecipitationType := get current "PrecipitationType" in
  Ok (VObj [("location", VObj [("latitude", lat);
                               ("longitude", lon)]);
            ("current", VObj [("temperature", temperature);
                              ("temp_unit", temp_unit);
                              ("conditions", conditions);
                              ("humidity", humidity);
                              ("wind_speed", wind_speed);
                              ("wind_unit", wind_unit);
                              ("wind_direction", wind_direction);
                              ("has_precipitation", has_precipitation);
                              ("precipitation_type", or_else PrecipitationType (VStr "none"))]);
            ("data_source", VStr "AccuWeather API")]).

(** What a handler returns: the response document (serialised with
    [JSON.stringify] in the source), or a text with [isError: true]. *)
Inductive failure : Type :=
| BadLatitude
| BadLongitude
| BadDays
| NoClient
| Caught (e : error).

Inductive tool_result : Type :=
| Content (response : value)
| IsError (why : failure).

(** The fallback point; the literals are kept as decimal fractions. *)
Definition NAIROBI_LAT : value := VNum (Fin (-12864 # 10000)).
Definition NAIROBI_LON : value := VNum (Fin (368172 # 10000)).

Section Handlers.

Variable net : provider.

(** [accuWeatherClient] is [null] when no API key is configured. *)
Variable configured : bool.

(** Parsed from the request headers; [undefined] when absent. *)
Variables defaultLatitude defaultLongitude : value.

(** The [catch] of a handler. *)
Definition caught (body : M tool_result) : M tool_result :=
  fun w =>
    match body w with
    | (Ok r, w') => (Ok r, w')
    | (Err e, w') => (Ok (IsError (Caught e)), w')
    end.

(** Tool [get_accuweather_weather_forecast].  The arguments are those the
    callback receives, [undefined] for an omitted one.  They are numbers or
    [undefined] (the schema and the parsing of the headers give nothing
    else), so the log line at the head of each handler, which interpolates
    them, cannot throw and is left out. *)
Definition get_accuweather_weather_forecast (latitude longitude days : value) : M tool_result :=
  let days := default_param days (VNum (of_Z 5)) in
  caught
    (let lat := nullish latitude (nullish defaultLatitude NAIROBI_LAT) in
     let lon := nullish longitude (nullish defaultLongitude NAIROBI_LON) in
     if invalid_coordinate lat 90 then ret (IsError BadLatitude) else
     if invalid_coordinate lon 180 then ret (IsError BadLongitude) else
     if invalid_days days then ret (IsError BadDays) else
     if negb configured then ret (IsError NoClient) else
     data <- getWeatherForecast net lat lon days ;;
     response <- lift (shapeForecastResponse lat lon days data) ;;
     ret (Content response)).

(** Tool [get_accuweather_current_conditions]. *)
Definition get_accuweather_current_conditions (latitude longitude : value) : M tool_result :=
  caught
    (let lat := nullish latitude (nullish defaultLatitude NAIROBI_LAT) in
     let lon := nullish longitude (nullish defaultLongitude NAIROBI_LON) in
     if negb configured then ret (IsError NoClient) else
     locationKey <- getLocationKey net lat lon ;;
     current <- getCurrentConditions net locationKey ;;
     response <- lift (shapeCurrentConditionsResponse lat lon current) ;;
     ret (Content response)).

End Handlers.

(** ** Well-typed provider data

    The TypeScript interfaces of the client, as records, and the JSON value
    each denotes.  The casts [as AccuWeatherLocation] and the like are not
    checked at run time, so the program itself works on [value]; the records
    say what "an input of the declared type" is. *)

Module Typed.

(** [{ Value: number; Unit: string }] *)
Record Measure : Type := {
  Value : number;
  Unit : string
}.

Record AccuWeatherLocation : Type := {
  Key : string;
  LocalizedName : string;
  Country_ID : string;
  Country_LocalizedName : string;
  AdministrativeArea_ID : string;
  AdministrativeArea_LocalizedName : string
}.

Record AccuWeatherForecast : Type := {
  Date : string;
  Temperature_Minimum : Measure;
  Temperature_Maximum : Measure;
  Day_Icon : number;
  Day_IconPhrase : string;
  Day_PrecipitationProbability : number;
  Day_Wind_Speed : Measure;
  Night_Icon : number;
  Night_IconPhrase : string;
  Night_PrecipitationProbability : number
}.

Record AccuWeatherCurrentConditions : Type := {
  LocalObservationDateTime : string;
  Temperature_Metric : Measure;
  Temperature_Imperial : Measure;
  WeatherText : string;
  WeatherIcon : number;
  RelativeHumidity : number;
  Wind_Speed_Metric : Measure;
  Wind_Direction_Degrees : number;
  Wind_Direction_Localized : string;
  PrecipitationType : option string;   (* PrecipitationType?: string *)
  HasPrecipitation : bool
}.

Definition measure (m : Measure) : value :=
  VObj [("Value", VNum (Value m)); ("Unit", VStr (Unit m))].

Definition location (l : AccuWeatherLocation) : value :=
  VObj [("Key", VStr (Key l));
        ("LocalizedName", VStr (LocalizedName l));
        ("Country", VObj [("ID", VStr (Country_ID l));
                          ("LocalizedName", VStr (Country_LocalizedName l))]);
        ("AdministrativeArea", VObj [("ID", VStr (AdministrativeArea_ID l));
                                     ("LocalizedName", VStr (AdministrativeArea_LocalizedName l))])].

Definition forecast (f : AccuWeatherForecast) : value :=
  VObj [("Date", VStr (Date f));
        ("Temperature", VObj [("Minimum", measure (Temperature_Minimum f));
                              ("Maximum", measure (Temperature_Maximum f))]);
        ("Day", VObj [("Icon", VNum (Day_Icon f));
                      ("IconPhrase", VStr (Day_IconPhrase f));
                      ("PrecipitationProbability", VNum (Day_PrecipitationProbability f));
                      ("Wind", VObj [("Speed", measure (Day_Wind_Speed f))])]);
        ("Night", VObj [("Icon", VNum (Night_Icon f));
                        ("IconPhrase", VStr (Night_IconPhrase f));
                        ("PrecipitationProbability", VNum (Night_PrecipitationProbability f))])].

(** An optional property is left out of the object when absent. *)
Definition optional (name : string) (o : option string) : list (string * value) :=
  match o with
  | Some s => [(name, VStr s)]
  | None => []
  end.

Definition conditions (c : AccuWeatherCurrentConditions) : value :=
  VObj ([("LocalObservationDateTime", VStr (LocalObservationDateTime c));
         ("Temperature", VObj [("Metric", measure (Temperature_Metric c));
                               ("Imperial", measure (Temperature_Imperial c))]);
         ("WeatherText", VStr (WeatherText c));
         ("WeatherIcon", VNum (WeatherIcon c));
         ("RelativeHumidity", VNum (RelativeHumidity c));
         ("Wind", VObj [("Speed", VObj [("Metric", measure (Wind_Speed_Metric c))]);
                        ("Direction", VObj [("Degrees", VNum (Wind_Direction_Degrees c));
                                            ("Localized", VStr (Wind_Direction_Localized c))])])]
        ++ optional "PrecipitationType" (PrecipitationType c)
        ++ [("HasPrecipitation", VBool (HasPrecipitation c))])%list.

(** The bundle [getWeatherForecast] resolves to. *)
Definition bundle (l : AccuWeatherLocation) (c : AccuWeatherCurrentConditions)
    (fs : list AccuWeatherForecast) : value :=
  VObj [("location", location l);
        ("current", conditions c);
        ("forecast", VArr (map forecast fs))].

End Typed.

(** ** Vocabulary of the specification *)

(** A finite number within [lo, hi]. *)
Definition finite_in (lo hi : Z) (v : value) : Prop :=
  exists q : Q, v = VNum (Fin q) /\ (inject_Z lo <= q <= inject_Z hi)%Q.

(** A number (finite or infinite, not [NaN]) below [lo] or above [hi]. *)
Definition number_outside (lo hi : Z) (v : value) : Prop :=
  v = VNum PosInfinity \/ v = VNum NegInfinity \/
  exists q : Q, v = VNum (Fin q) /\ (q < inject_Z lo \/ inject_Z hi < q)%Q.

(** The number [v] is the integer [z]. *)
Definition is_integer (z : Z) (v : value) : Prop :=
  exists q : Q, v = VNum (Fin q) /\ (q == inject_Z z)%Q.

(** An integer within [lo, hi]. *)
Definition integer_in (lo hi : Z) (v : value) : Prop :=
  exists z : Z, lo <= z <= hi /\ is_integer z v.

(** A location key the client accepts: a non-empty string. *)
Definition valid_key (v : value) : Prop :=
  exists s : string, v = VStr s /\ s <> "".

(** A calendar date [YYYY-MM-DD]. *)
Definition is_digit (c : ascii) : bool :=
  let n := nat_of_ascii c in ((48 <=? n) && (n <=? 57))%nat.

Definition is_calendar_date (s : string) : bool :=
  match list_ascii_of_string s with
  | [y1; y2; y3; y4; d1; m1; m2; d2; a1; a2] =>
      is_digit y1 && is_digit y2 && is_digit y3 && is_digit y4 &&
      Ascii.eqb d1 "-" && is_digit m1 && is_digit m2 &&
      Ascii.eqb d2 "-" && is_digit a1 && is_digit a2
  | _ => false
  end.

(** No [T] among the characters of a string. *)
Fixpoint free_of_T (s : string) : bool :=
  match s with
  | EmptyString => true
  | String c rest => negb (Ascii.eqb c "T") && free_of_T rest
  end.

(** An ISO date-time: a calendar date, then [T], then the time of day
    (with or without a zone offset). *)
Definition iso_date_time (date s : string) : Prop :=
  is_calendar_date date = true /\ exists time : string, s = (date ++ "T" ++ time)%string.

(** The provider answers this URL in time with this response: [fetch]
    settles with it before the limit (its body may take longer). *)
Definition responds_in_time (net : provider) (u : endpoint) (r : response) : Prop :=
  (latency (net u) < timeout_ms)%N /\ answer (net u) = Responds r.

(** [e] is an upstream error that carries the status code of [r] and its
    body, or its status text when the body is empty. *)
Definition carries_status_and_detail (r : response) (e : error) : Prop :=
  kind e = UpstreamError /\
  carried_status e = Some (status r) /\
  (text r <> "" -> carried_detail e = Some (text r)) /\
  (text r = "" -> carried_detail e = Some (statusText r)).

(** The conditions array is absent (the body is not an array) or empty. *)
Definition absent_or_empty (data : value) : Prop :=
  (forall l : list value, data <> VArr l) \/ data = VArr [].

(** No request was issued between the two states. *)
Definition no_network_call (w w' : world) : Prop := calls w' = calls w.

(** ** Scenarios

    Concrete providers and data the properties below are run on: the
    fallback point of the handlers (Nairobi), its location, one observation
    and a run of daily forecasts. *)

Module Scenario.

Import Typed.

Definition start : world := World 0 [].

(** A provider that cannot be reached. *)
Definition unreachable : provider :=
  fun _ => Outcome 0 (Fails "FetchError" "getaddrinfo ENOTFOUND dataservice.accuweather.com").

(** A 200 response whose body parses to [v] and is there with the headers
    (its raw text is not read on the success path). *)
Definition ok_json (v : value) : response :=
  Response 200 "OK" "" (Some v) 0.

Definition celsius (z : Z) : Measure := {| Value := of_Z z; Unit := "C" |}.

Definition nairobi : AccuWeatherLocation := {|
  Key := "224758";
  LocalizedName := "Nairobi";
  Country_ID := "KE";
  Country_LocalizedName := "Kenya";
  AdministrativeArea_ID := "30";
  AdministrativeArea_LocalizedName := "Nairobi"
|}.

Definition observation (precipitation : option string) : AccuWeatherCurrentConditions := {|
  LocalObservationDateTime := "2025-11-05T09:12:00+03:00";
  Temperature_Metric := celsius 21;
  Temperature_Imperial := {| Value := of_Z 70; Unit := "F" |};
  WeatherText := "Partly sunny";
  WeatherIcon := of_Z 3;
  RelativeHumidity := of_Z 64;
  Wind_Speed_Metric := {| Value := of_Z 11; Unit := "km/h" |};
  Wind_Direction_Degrees := of_Z 90;
  Wind_Direction_Localized := "E";
  PrecipitationType := precipitation;
  HasPrecipitation := false
|}.

Definition daily (date : string) (lo hi : Z) : AccuWeatherForecast := {|
  Date := date;
  Temperature_Minimum := celsius lo;
  Temperature_Maximum := celsius hi;
  Day_Icon := of_Z 4;
  Day_IconPhrase := "Intermittent clouds";
  Day_PrecipitationProbability := of_Z 25;
  Day_Wind_Speed := {| Value := of_Z 13; Unit := "km/h" |};
  Night_Icon := of_Z 35;
  Night_IconPhrase := "Partly cloudy";
  Night_PrecipitationProbability := of_Z 10
|}.

Definition five_days : list AccuWeatherForecast :=
  [daily "2025-11-05T07:00:00+03:00" 15 26;
   daily "2025-11-06T07:00:00+03:00" 16 27;
   daily "2025-11-07T07:00:00+03:00" 15 25;
   daily "2025-11-08T07:00:00+03:00" 14 24;
   daily "2025-11-09T07:00:00+03:00" 15 26].

Definition three_days : list AccuWeatherForecast := firstn 3 five_days.

Definition seven_days : list AccuWeatherForecast :=
  (five_days ++ [daily "2025-11-10T07:00:00+03:00" 15 25;
                 daily "2025-11-11T07:00:00+03:00" 16 26])%list.

Definition forecasts_body (fs : list AccuWeatherForecast) : value :=
  VObj [("DailyForecasts", VArr (map forecast fs))].

(** A provider that resolves every coordinate to Nairobi and answers the
    three other endpoints as told. *)
Definition serving (current daily_forecasts details : outcome) : provider :=
  fun u =>
    match u with
    | GeopositionSearch _ _ => Outcome 120 (Responds (ok_json (location nairobi)))
    | CurrentConditions _ => current
    | DailyForecast _ _ => daily_forecasts
    | LocationDetails _ => details
    end.

Definition current_ok : outcome :=
  Outcome 80 (Responds (ok_json (VArr [conditions (observation None)]))).

Definition forecast_ok (fs : list AccuWeatherForecast) : outcome :=
  Outcome 95 (Responds (ok_json (forecasts_body fs))).

Definition details_ok (after : N) : outcome :=
  Outcome after (Responds (ok_json (location nairobi))).

(** The usual case: every endpoint answers well within the limit. *)
Definition healthy (fs : list AccuWeatherForecast) : provider :=
  serving current_ok (forecast_ok fs) (details_ok 60).

Definition unauthorized : response :=
  Response 401 "Unauthorized" "Api Authorization failed" None 0.

Definition key : value := VStr "224758".

End Scenario.

(** ** Further vocabulary: failures, request logs, and more scenarios *)

(** The provider fails this URL before the limit with this error. *)
Definition fails_in_time (net : provider) (u : endpoint) (name message : string) : Prop :=
  (latency (net u) < timeout_ms)%N /\ answer (net u) = Fails name message.

(** [fetch] has not settled for this URL when the limit is reached. *)
Definition too_late (net : provider) (u : endpoint) : Prop :=
  (timeout_ms <= latency (net u))%N.

(** The geoposition body has no usable key: it is falsy itself, or its
    [Key] is absent, empty, zero or [null]. *)
Definition lacks_key (data : value) : Prop :=
  truthy data = false \/ exists k : value, get data "Key" = Ok k /\ truthy k = false.

(** The forecast body has no [DailyForecasts] array. *)
Definition lacks_forecasts (data : value) : Prop :=
  forall l : list value, get data "DailyForecasts" <> Ok (VArr l).

(** [undefined] or [null]. *)
Definition is_nullish (v : value) : Prop := v = VUndefined \/ v = VNull.

(** The time a reply takes from the request to the end of its body; a
    failure has no body. *)
Definition reply_time (net : provider) (u : endpoint) : N :=
  (latency (net u) +
   match answer (net u) with
   | Responds r => body_ms r
   | Fails _ _ => 0
   end)%N.

(** The requests of one [getWeatherForecast] call, in the order the code
    issues them. *)
Definition forecast_plan (lat lon days locationKey : value) : list request :=
  [Request (GeopositionSearch lat lon) true;
   Request (CurrentConditions locationKey) true;
   Request (DailyForecast days locationKey) true;
   Request (LocationDetails locationKey) false].

(** The requests of one run of the current-conditions tool. *)
Definition conditions_plan (lat lon locationKey : value) : list request :=
  [Request (GeopositionSearch lat lon) true;
   Request (CurrentConditions locationKey) true].

(** The result is a value or a [TypeError]. *)
Definition only_type_errors {A : Type} (r : result A) : Prop :=
  forall e : error, r = Err e -> exists reading : string, e = TypeError reading.

(** The messages of the client's own checks of numbers: latitude,
    longitude and day count. *)
Definition is_number_check (e : error) : Prop :=
  match e with
  | InvalidLatitude _ | InvalidLongitude _ | InvalidDays _ => True
  | _ => False
  end.

(** The coordinate a handler works with: the argument, else the header
    default, else the fallback. *)
Definition effective (argument header fallback : value) : value :=
  nullish argument (nullish header fallback).

Module Incident.

Import Typed.

(** Every endpoint answers correctly, 45 s after the request. *)
Definition sluggish : provider :=
  Scenario.serving
    (Outcome 45000 (Responds (Scenario.ok_json (VArr [conditions (Scenario.observation None)]))))
    (Outcome 45000 (Responds (Scenario.ok_json (Scenario.forecasts_body Scenario.five_days))))
    (Scenario.details_ok 45000).

(** The connection is reset after 40 ms, on every endpoint. *)
Definition resetting : provider :=
  fun _ => Outcome 40 (Fails "FetchError" "socket hang up").

(** Every endpoint answers 200 with this body. *)
Definition answering (body : option value) : provider :=
  fun _ => Outcome 50 (Responds (Response 200 "OK" "" body 0)).

(** A gateway page instead of JSON. *)
Definition gateway_page : response :=
  Response 200 "OK" "<html>Service temporarily unavailable</html>" None 0.

(** A 204 without a body. *)
Definition no_content : response := Response 204 "No Content" "" None 0.

(** Every endpoint answers 204, without a body. *)
Definition silent : provider :=
  fun _ => Outcome 50 (Responds no_content).

(** The headers come after 50 ms, the body 31 s later, on every endpoint. *)
Definition trickling (body : value) : provider :=
  fun _ => Outcome 50 (Responds (Response 200 "OK" "" (Some body) 31000)).

(** A geoposition body whose key is a number, one without [Country], and
    one without [AdministrativeArea]. *)
Definition numeric_key_body : value :=
  VObj [("Key", VNum (of_Z 224758));
        ("LocalizedName", VStr "Nairobi");
        ("Country", VObj [("ID", VStr "KE"); ("LocalizedName", VStr "Kenya")])].

Definition no_country_body : value :=
  VObj [("Key", VStr "224758"); ("LocalizedName", VStr "Nairobi")].

Definition no_area_body : value :=
  VObj [("Key", VStr "224758");
        ("LocalizedName", VStr "Nairobi");
        ("Country", VObj [("ID", VStr "KE"); ("LocalizedName", VStr "Kenya")])].

(** The geoposition search answers with [body]; the rest is healthy. *)
Definition resolving_to (body : value) : provider :=
  fun u =>
    match u with
    | GeopositionSearch _ _ => Outcome 120 (Responds (Scenario.ok_json body))
    | _ => Scenario.healthy Scenario.five_days u
    end.

End Incident.

(** * Properties *)

(** Unfold the monad so that a method becomes a tree of [match]es on what
    the provider answers. *)
Ltac unfold_monad :=
  unfold response_json, response_text, interpolate, try_catch, bind, on_abort, throw, ret, lift,
    read_body in *.

(** Split on the innermost scrutinee of the goal. *)
Ltac case_step :=
  match goal with
  | |- context [match ?x with _ => _ end] =>
      lazymatch x with
      | context [match _ with _ => _ end] => fail
      | _ => destruct x eqn:?
      end
  end.

(** ** Numbers and validation *)

Lemma Qlt_bool_iff (a b : Q) : Qlt_bool a b = true <-> (a < b)%Q.
Proof.
  unfold Qlt_bool. rewrite negb_true_iff. split; intro H.
  - apply Qnot_le_lt. intro Hle. apply Qle_bool_iff in Hle. congruence.
  - destruct (Qle_bool b a) eqn:E; [|reflexivity].
    apply Qle_bool_iff in E. exfalso. apply (Qlt_not_le _ _ H E).
Qed.

Lemma Qlt_bool_false_iff (a b : Q) : Qlt_bool a b = false <-> (b <= a)%Q.
Proof.
  unfold Qlt_bool. rewrite negb_false_iff. apply Qle_bool_iff.
Qed.

(** The coordinate check accepts exactly the finite numbers in range. *)
Lemma invalid_coordinate_false_iff (bound : Z) (v : value) :
  invalid_coordinate v bound = false <-> finite_in (- bound) bound v.
Proof.
  unfold invalid_coordinate, finite_in. split.
  - destruct v as [| | |n| | |]; try discriminate.
    destruct n as [| | |q]; try discriminate.
    unfold gt, of_Z. cbn [isNaN lt orb]. rewrite orb_false_iff.
    intros [H1 H2]. apply Qlt_bool_false_iff in H1, H2. eauto.
  - intros [q [-> [H1 H2]]]. unfold gt, of_Z. cbn [isNaN lt orb].
    apply orb_false_iff. split; apply Qlt_bool_false_iff; assumption.
Qed.

(** The day-count check rejects every number outside [1, 15] and every
    value that is not a number. *)
Lemma invalid_days_outside (v : value) :
  number_outside 1 15 v -> invalid_days v = true.
Proof.
  intros [-> | [-> | [q [-> H]]]]; try reflexivity.
  unfold invalid_days, gt, of_Z. cbn [lt]. apply orb_true_iff.
  destruct H as [H | H]; [left | right]; apply Qlt_bool_iff; assumption.
Qed.

(** The day-count check accepts every finite number in [1, 15], whole or not. *)
Lemma invalid_days_inside (v : value) :
  finite_in 1 15 v -> invalid_days v = false.
Proof.
  intros [q [-> [H1 H2]]]. unfold invalid_days, gt, of_Z. cbn [lt].
  apply orb_false_iff. split; apply Qlt_bool_false_iff; assumption.
Qed.

Lemma invalid_key_valid (v : value) : valid_key v -> invalid_key v = false.
Proof.
  intros [s [-> Hs]]. unfold invalid_key. cbn.
  apply String.eqb_neq in Hs. rewrite Hs. reflexivity.
Qed.

Lemma finite_in_not_undefined (lo hi : Z) (v : value) :
  finite_in lo hi v -> default_param v (VNum (of_Z 5)) = v.
Proof. intros [q [-> _]]. reflexivity. Qed.

Lemma number_outside_not_undefined (lo hi : Z) (v : value) :
  number_outside lo hi v -> default_param v (VNum (of_Z 5)) = v.
Proof. intros [-> | [-> | [q [-> _]]]]; reflexivity. Qed.

(** Every number has a string form. *)
Lemma number_outside_converts (lo hi : Z) (v : value) :
  number_outside lo hi v -> converts v = true.
Proof. intros [-> | [-> | [q [-> _]]]]; reflexivity. Qed.

(** ** The fetch primitive *)

Section FetchFacts.

Variable net : provider.

(** With the 30 s signal, a reply that arrives in time is delivered. *)
Lemma fetch_in_time (u : endpoint) (r : response) (w : world) :
  responds_in_time net u r ->
  fetch net u (Some timeout_ms) w =
    (Ok r, World (now w + latency (net u))%N (calls w ++ [Request u true])).
Proof.
  intros [Hlat Hans]. unfold fetch. rewrite Hans.
  destruct (N.leb_spec timeout_ms (latency (net u))); [lia | reflexivity].
Qed.

(** With the 30 s signal, a reply due at 30 s or later is never seen: the
    call is aborted at 30 s. *)
Lemma fetch_late (u : endpoint) (w : world) :
  (timeout_ms <= latency (net u))%N ->
  fetch net u (Some timeout_ms) w =
    (Err AbortError, World (now w + timeout_ms)%N (calls w ++ [Request u true])).
Proof.
  intros Hlat. unfold fetch.
  destruct (N.leb_spec timeout_ms (latency (net u))); [|lia].
  destruct (answer (net u)); reflexivity.
Qed.

(** Without a signal the reply is delivered whatever its latency. *)
Lemma fetch_unbounded (u : endpoint) (r : response) (w : world) :
  answer (net u) = Responds r ->
  fetch net u None w =
    (Ok r, World (now w + latency (net u))%N (calls w ++ [Request u false])).
Proof. intros Hans. unfold fetch. rewrite Hans. reflexivity. Qed.

End FetchFacts.

(** ** Argument validation *)

(** C5. [getLocationKey] called with numbers of which the latitude is not
    a finite number in [-90, 90] (it is [NaN], infinite or out of range), or
    the longitude is not a finite number in [-180, 180], fails with an
    [InvalidArgument] error and issues no network call (the clock and the
    request log are those it was called with). *)
Theorem getLocationKey_rejects_bad_coordinates
    (net : provider) (lat lon : number) (w : world) :
  ~ finite_in (-90) 90 (VNum lat) \/ ~ finite_in (-180) 180 (VNum lon) ->
  exists e w',
    getLocationKey net (VNum lat) (VNum lon) w = (Err e, w') /\
    kind e = InvalidArgument /\
    no_network_call w w'.
Proof.
  intros Hbad. unfold getLocationKey.
  destruct (invalid_coordinate (VNum lat) 90) eqn:Elat.
  - exists (InvalidLatitude (VNum lat)), w. repeat split.
  - destruct (invalid_coordinate (VNum lon) 180) eqn:Elon.
    + exists (InvalidLongitude (VNum lon)), w. repeat split.
    + exfalso. apply (invalid_coordinate_false_iff 90) in Elat.
      apply (invalid_coordinate_false_iff 180) in Elon.
      destruct Hbad as [H | H]; apply H; assumption.
Qed.

Lemma getLocationKey_rejects_bad_coordinates_witness :
  exists e w',
    getLocationKey Scenario.unreachable (VNum (of_Z 91)) (VNum NaN) Scenario.start = (Err e, w') /\
    kind e = InvalidArgument /\
    no_network_call Scenario.start w'.
Proof.
  apply getLocationKey_rejects_bad_coordinates.
  right. intros [q [H _]]. discriminate H.
Defined.

(** Close a branch in which the run has failed though the hypothesis of
    the goal says it has succeeded. *)
Ltac refute := solve [repeat (cbn [fst snd]; try discriminate; case_step)].

(** The failure of C1 as stated: the day count 2.5 is not an integer in
    [1, 15], and [getForecast] neither rejects it nor refrains from calling
    the provider; it requests the forecast and returns the first two days. *)
Lemma getForecast_fractional_days_accepted :
  ~ integer_in 1 15 (VNum (Fin (5 # 2))) /\
  getForecast (Scenario.healthy Scenario.five_days) Scenario.key (VNum (Fin (5 # 2)))
      Scenario.start =
    (Ok (VArr (map Typed.forecast (firstn 2 Scenario.five_days))),
     World 95 [Request (DailyForecast (VNum (Fin (5 # 2))) Scenario.key) true]).
Proof.
  split.
  - intros [z [Hz [q [Hq Heq]]]]. injection Hq as <-.
    unfold Qeq in Heq. cbn in Heq. lia.
  - vm_compute. reflexivity.
Qed.

(** C1 (amended). A day count that is a number below 1 or above 15, the
    infinities included, makes [getForecast] fail with an [InvalidArgument]
    error without any network call; a finite day count within [1, 15],
    whole or fractional, passes validation: with a valid key, the forecast
    request is the one request issued. *)
Theorem getForecast_day_count_validation
    (net : provider) (locationKey days : value) (w : world) :
  (number_outside 1 15 days ->
   exists e w',
     getForecast net locationKey days w = (Err e, w') /\
     kind e = InvalidArgument /\
     no_network_call w w') /\
  (valid_key locationKey -> finite_in 1 15 days ->
   calls (snd (getForecast net locationKey days w)) =
     (calls w ++ [Request (DailyForecast days locationKey) true])%list).
Proof.
  split.
  - intros Hout. unfold getForecast.
    rewrite (number_outside_not_undefined _ _ _ Hout).
    destruct (invalid_key locationKey).
    + exists InvalidLocationKey, w. repeat split.
    + rewrite (invalid_days_outside _ Hout). unfold_monad.
      rewrite (number_outside_converts _ _ _ Hout).
      exists (InvalidDays days), w. repeat split.
  - intros Hkey Hin. unfold getForecast.
    rewrite (finite_in_not_undefined _ _ _ Hin), (invalid_key_valid _ Hkey),
      (invalid_days_inside _ Hin).
    unfold_monad. unfold fetch.
    repeat (cbn [fst snd calls]; try reflexivity; case_step).
Qed.

Lemma getForecast_day_count_validation_witness :
  (exists e w',
     getForecast Scenario.unreachable Scenario.key (VNum (of_Z 16)) Scenario.start = (Err e, w') /\
     kind e = InvalidArgument /\
     no_network_call Scenario.start w') /\
  calls (snd (getForecast Scenario.unreachable Scenario.key (VNum (Fin (5 # 2))) Scenario.start)) =
    [Request (DailyForecast (VNum (Fin (5 # 2))) Scenario.key) true].
Proof.
  split.
  - apply (getForecast_day_count_validation Scenario.unreachable Scenario.key
             (VNum (of_Z 16)) Scenario.start).
    right. right. exists (inject_Z 16). split; [reflexivity|].
    right. reflexivity.
  - apply (getForecast_day_count_validation Scenario.unreachable Scenario.key
             (VNum (Fin (5 # 2))) Scenario.start).
    + exists "224758". split; [reflexivity | discriminate].
    + exists (5 # 2). split; [reflexivity|]. split; discriminate.
Defined.

(** ** Forecast retrieval *)

Lemma ToIntegerOrInfinity_integer (q : Q) (z : Z) :
  (q == inject_Z z)%Q -> ToIntegerOrInfinity (Fin q) = Int z.
Proof.
  unfold Qeq. cbn. intros H. rewrite Z.mul_1_r in H. rewrite H.
  rewrite Z.quot_mul by discriminate. reflexivity.
Qed.

(** [slice(0, n)] with a whole, non-negative [n] keeps the first [n]
    elements, or all of them when there are fewer. *)
Lemma slice_whole {A : Type} (l : list A) (q : Q) (z : Z) :
  (q == inject_Z z)%Q -> 0 <= z ->
  slice l (Fin q) = firstn (Z.to_nat z) l.
Proof.
  intros Hq Hz. unfold slice. rewrite (ToIntegerOrInfinity_integer _ _ Hq).
  destruct (Z.ltb_spec z 0); [lia|].
  destruct (Z.le_ge_cases z (Z.of_nat (List.length l))) as [Hle | Hge].
  - rewrite Z.min_l by assumption. reflexivity.
  - rewrite Z.min_r by assumption. rewrite Nat2Z.id.
    rewrite firstn_all. symmetry. apply firstn_all2. lia.
Qed.

(** A body that has a [DailyForecasts] array is an object, hence truthy. *)
Lemma has_array_truthy (data : value) (name : string) (l : list value) :
  get data name = Ok (VArr l) -> truthy data = true.
Proof.
  destruct data; cbn; try discriminate; try reflexivity;
    destruct (name =? "length")%string; discriminate.
Qed.

Lemma is_integer_finite_in (lo hi z : Z) (v : value) :
  lo <= z <= hi -> is_integer z v -> finite_in lo hi v.
Proof.
  intros Hz [q [-> Hq]]. exists q. split; [reflexivity|].
  rewrite Hq. rewrite <- !Zle_Qle. assumption.
Qed.

(** The success path of [getForecast]: a valid key, an accepted day count,
    and a timely 2xx reply whose body has a [DailyForecasts] array. *)
Lemma getForecast_success
    (net : provider) (locationKey days : value) (r : response)
    (data : value) (l : list value) (w : world) :
  valid_key locationKey ->
  finite_in 1 15 days ->
  responds_in_time net (DailyForecast days locationKey) r ->
  ok r = true ->
  json r = Some data ->
  get data "DailyForecasts" = Ok (VArr l) ->
  getForecast net locationKey days w =
    (Ok (VArr (slice l (number_of days))),
     World (now w + latency (net (DailyForecast days locationKey)) + body_ms r)%N
           (calls w ++ [Request (DailyForecast days locationKey) true])).
Proof.
  intros Hkey Hin Hnet Hok Hjson Hget. unfold getForecast.
  rewrite (finite_in_not_undefined _ _ _ Hin), (invalid_key_valid _ Hkey),
    (invalid_days_inside _ Hin).
  unfold_monad. rewrite (fetch_in_time _ _ _ w Hnet).
  rewrite Hok, Hjson. cbn [negb]. rewrite (has_array_truthy _ _ _ Hget).
  cbn [negb]. rewrite Hget. reflexivity.
Qed.

(** What a successful [getForecast] tells: the day count was accepted, the
    provider replied with a body holding a [DailyForecasts] array, and the
    result is that array cut by [slice]. *)
Lemma getForecast_ok_inv
    (net : provider) (locationKey days v : value) (w w' : world) :
  getForecast net locationKey days w = (Ok v, w') ->
  let days' := default_param days (VNum (of_Z 5)) in
  exists (r : response) (data : value) (l : list value),
    invalid_days days' = false /\
    answer (net (DailyForecast days' locationKey)) = Responds r /\
    json r = Some data /\
    get data "DailyForecasts" = Ok (VArr l) /\
    v = VArr (slice l (number_of days')).
Proof.
  unfold getForecast. cbv zeta. set (days' := default_param _ _).
  unfold_monad. unfold fetch.
  destruct (invalid_key locationKey); [discriminate|].
  destruct (invalid_days days') eqn:Edays; [refute|].
  destruct (timeout_ms <=? latency (net (DailyForecast days' locationKey)))%N;
    [cbn; discriminate|].
  destruct (answer (net (DailyForecast days' locationKey))) as [r|name message] eqn:Eans;
    [|destruct (error_name (FetchError name message) =? "AbortError")%string; discriminate].
  destruct (negb (ok r)); [cbn; discriminate|].
  destruct (json r) as [data|] eqn:Ejson; [|cbn; discriminate].
  destruct (negb (truthy data)); [cbn; discriminate|].
  destruct (get data "DailyForecasts") as [forecasts|e] eqn:Eget;
    [|destruct (error_name e =? "AbortError")%string; discriminate].
  destruct (negb (truthy forecasts) || negb (isArray forecasts)) eqn:Earr;
    [cbn; discriminate|].
  apply orb_false_iff in Earr. destruct Earr as [_ Earr].
  destruct forecasts as [| | | | |l|]; try discriminate Earr.
  cbn. intros H. injection H as <- _.
  exists r, data, l. repeat split; assumption.
Qed.

(** C4. With a valid location key and a requested day count [N] (a whole
    number from 1 to 15), when the provider's [DailyForecasts] list has more
    than [N] entries, [getForecast] returns exactly its first [N] entries:
    a list of length [N], never more. *)
Theorem getForecast_truncates_to_requested
    (net : provider) (locationKey days : value) (N : Z) (r : response)
    (data : value) (l : list value) (w : world) :
  valid_key locationKey ->
  1 <= N <= 15 ->
  is_integer N days ->
  responds_in_time net (DailyForecast days locationKey) r ->
  ok r = true ->
  json r = Some data ->
  get data "DailyForecasts" = Ok (VArr l) ->
  N < Z.of_nat (List.length l) ->
  fst (getForecast net locationKey days w) = Ok (VArr (firstn (Z.to_nat N) l)) /\
  Z.of_nat (List.length (firstn (Z.to_nat N) l)) = N.
Proof.
  intros Hkey HN Hint Hnet Hok Hjson Hget Hmore.
  rewrite (getForecast_success net locationKey days r data l w Hkey
             (is_integer_finite_in 1 15 N days HN Hint) Hnet Hok Hjson Hget).
  destruct Hint as [q [-> Hq]]. cbn [fst number_of].
  rewrite (slice_whole l q N Hq) by lia.
  split; [reflexivity|]. rewrite length_firstn. lia.
Qed.

Lemma getForecast_truncates_to_requested_witness :
  fst (getForecast (Scenario.healthy Scenario.seven_days) Scenario.key (VNum (of_Z 5))
         Scenario.start) =
    Ok (VArr (firstn 5 (map Typed.forecast Scenario.seven_days))) /\
  Z.of_nat (List.length (firstn 5 (map Typed.forecast Scenario.seven_days))) = 5.
Proof.
  apply (getForecast_truncates_to_requested
           (Scenario.healthy Scenario.seven_days) Scenario.key (VNum (of_Z 5)) 5
           (Scenario.ok_json (Scenario.forecasts_body Scenario.seven_days))
           (Scenario.forecasts_body Scenario.seven_days)
           (map Typed.forecast Scenario.seven_days) Scenario.start).
  - exists "224758". split; [reflexivity | discriminate].
  - lia.
  - exists (inject_Z 5). split; reflexivity.
  - split; reflexivity.
  - reflexivity.
  - reflexivity.
  - reflexivity.
  - vm_compute. reflexivity.
Defined.

(** ** The composed fetch *)

(** [Promise.all] fulfils only when both calls do, the second having been
    started at the same instant as the first, after the first's request. *)
Lemma promise_all_ok_inv {A B : Type} (a : M A) (b : M B) (x : A) (y : B) (w w' : world) :
  promise_all a b w = (Ok (x, y), w') ->
  exists wa wb,
    a w = (Ok x, wa) /\
    b (World (now w) (calls wa)) = (Ok y, wb) /\
    w' = World (N.max (now wa) (now wb)) (calls wb).
Proof.
  unfold promise_all. destruct (a w) as [ra wa].
  destruct (b (World (now w) (calls wa))) as [rb wb] eqn:Eb.
  destruct ra as [x'|e1], rb as [y'|e2]; try discriminate.
  - intros H. injection H as <- <- <-. exists wa, wb. repeat split. exact Eb.
  - destruct (now wa <=? now wb)%N; discriminate.
Qed.

(** What a successful [getWeatherForecast] tells: the key was resolved,
    both second-stage calls succeeded with that key, the details reply was
    a 2xx with a JSON body, and the bundle is made of the three results. *)
Lemma getWeatherForecast_ok_inv
    (net : provider) (lat lon days bundle : value) (w w' : world) :
  getWeatherForecast net lat lon days w = (Ok bundle, w') ->
  let days' := default_param days (VNum (of_Z 5)) in
  exists (locationKey current forecast location : value) (wk wa wb : world) (r : response),
    getLocationKey net lat lon w = (Ok locationKey, wk) /\
    getCurrentConditions net locationKey wk = (Ok current, wa) /\
    getForecast net locationKey days' (World (now wk) (calls wa)) = (Ok forecast, wb) /\
    answer (net (LocationDetails locationKey)) = Responds r /\
    ok r = true /\
    json r = Some location /\
    bundle = VObj [("location", location); ("current", current); ("forecast", forecast)].
Proof.
  unfold getWeatherForecast. cbv zeta. set (days' := default_param _ _).
  unfold bind at 1. destruct (getLocationKey net lat lon w) as [[locationKey|e] wk];
    [|discriminate].
  unfold bind at 1.
  destruct (promise_all _ _ wk) as [[[current forecast]|e] wp] eqn:Eall; [|discriminate].
  apply promise_all_ok_inv in Eall. destruct Eall as [wa [wb [Ha [Hb _]]]].
  unfold_monad. unfold fetch.
  destruct (answer (net (LocationDetails locationKey))) as [r|name message] eqn:Eans;
    [|discriminate].
  destruct (ok r) eqn:Eok; [|cbn; discriminate].
  destruct (json r) as [location|] eqn:Ejson; [|cbn; discriminate].
  cbn. intros H. injection H as <- _.
  exists locationKey, current, forecast, location, wk, wa, wb, r.
  repeat split; assumption.
Qed.

(** The failure of C3 as stated: five days are requested, the provider has
    three, the call succeeds, and the bundle's forecast has three entries. *)
Lemma getWeatherForecast_short_forecast :
  fst (getWeatherForecast (Scenario.healthy Scenario.three_days)
         NAIROBI_LAT NAIROBI_LON (VNum (of_Z 5)) Scenario.start) =
    Ok (Typed.bundle Scenario.nairobi (Scenario.observation None) Scenario.three_days) /\
  List.length (map Typed.forecast Scenario.three_days) = 3%nat.
Proof. split; vm_compute; reflexivity. Qed.

(** C3 (amended). When [getWeatherForecast] succeeds for a whole day count
    [N], the bundle's forecast is the first [N] entries of the provider's
    [DailyForecasts] list, in the provider's order, or the whole list when
    it is shorter: its length is the smaller of [N] and the list's length,
    hence exactly [N] whenever the provider returned at least [N] entries
    (five for a five-day reply to a request for five). *)
Theorem getWeatherForecast_forecast_is_prefix
    (net : provider) (lat lon days bundle : value) (N : Z) (w w' : world) :
  is_integer N days ->
  getWeatherForecast net lat lon days w = (Ok bundle, w') ->
  exists (locationKey data : value) (r : response) (l : list value),
    answer (net (DailyForecast days locationKey)) = Responds r /\
    json r = Some data /\
    get data "DailyForecasts" = Ok (VArr l) /\
    get bundle "forecast" = Ok (VArr (firstn (Z.to_nat N) l)) /\
    Z.of_nat (List.length (firstn (Z.to_nat N) l)) = Z.min N (Z.of_nat (List.length l)) /\
    (N <= Z.of_nat (List.length l) ->
     Z.of_nat (List.length (firstn (Z.to_nat N) l)) = N).
Proof.
  intros Hint Hrun. apply getWeatherForecast_ok_inv in Hrun. cbv zeta in Hrun.
  destruct Hrun as (locationKey & current & forecast & location & wk & wa & wb & rd &
                    _ & _ & Hf & _ & _ & _ & ->).
  apply getForecast_ok_inv in Hf. cbv zeta in Hf.
  destruct Hf as (r & data & l & Hdays & Hans & Hjson & Hget & ->).
  destruct Hint as [q [-> Hq]]. cbn [default_param number_of] in *.
  assert (HN : 1 <= N).
  { unfold invalid_days, gt, of_Z in Hdays. cbn [lt] in Hdays.
    apply orb_false_iff in Hdays. destruct Hdays as [H1 _].
    apply Qlt_bool_false_iff in H1. rewrite Hq in H1.
    rewrite <- Zle_Qle in H1. exact H1. }
  exists locationKey, data, r, l.
  rewrite (slice_whole l q N Hq) by lia.
  repeat split; try assumption.
  - rewrite length_firstn. lia.
  - intros Hle. rewrite length_firstn. lia.
Qed.

Lemma getWeatherForecast_forecast_is_prefix_witness :
  exists (locationKey data : value) (r : response) (l : list value),
    answer (Scenario.healthy Scenario.five_days (DailyForecast (VNum (of_Z 5)) locationKey)) =
      Responds r /\
    json r = Some data /\
    get data "DailyForecasts" = Ok (VArr l) /\
    get (Typed.bundle Scenario.nairobi (Scenario.observation None) Scenario.five_days)
        "forecast" = Ok (VArr (firstn (Z.to_nat 5) l)) /\
    Z.of_nat (List.length (firstn (Z.to_nat 5) l)) = Z.min 5 (Z.of_nat (List.length l)) /\
    (5 <= Z.of_nat (List.length l) ->
     Z.of_nat (List.length (firstn (Z.to_nat 5) l)) = 5).
Proof.
  apply (getWeatherForecast_forecast_is_prefix
           (Scenario.healthy Scenario.five_days) NAIROBI_LAT NAIROBI_LON (VNum (of_Z 5))
           (Typed.bundle Scenario.nairobi (Scenario.observation None) Scenario.five_days)
           5 Scenario.start
           (World 275 [Request (GeopositionSearch NAIROBI_LAT NAIROBI_LON) true;
                       Request (CurrentConditions Scenario.key) true;
                       Request (DailyForecast (VNum (of_Z 5)) Scenario.key) true;
                       Request (LocationDetails Scenario.key) false])).
  - exists (inject_Z 5). split; reflexivity.
  - vm_compute. reflexivity.
Defined.

(** ** Current conditions *)

(** The failure of C6 as stated: the provider answers 204, a success
    without a body, hence without a conditions array; [getCurrentConditions]
    fails with the error of [response.json()], which is not an
    [UpstreamProtocolError]. *)
Lemma getCurrentConditions_empty_body_is_not_protocol_error :
  ok Incident.no_content = true /\
  json Incident.no_content = None /\
  fst (getCurrentConditions Incident.silent Scenario.key Scenario.start) = Err JsonError /\
  kind JsonError <> UpstreamProtocolError.
Proof. repeat split; try reflexivity. discriminate. Qed.

(** C6 (amended). With a valid location key and a timely 2xx reply,
    [getCurrentConditions] fails with an [UpstreamProtocolError] when the
    body is JSON that is not an array or is the empty array, returns the
    first element when the body is a non-empty array, and, when the body is
    not JSON at all (an empty body, say), fails with the error of
    [response.json()], passed on unchanged. *)
Theorem getCurrentConditions_first_or_protocol_error
    (net : provider) (locationKey : value) (r : response) (w : world) :
  valid_key locationKey ->
  responds_in_time net (CurrentConditions locationKey) r ->
  ok r = true ->
  (forall data, json r = Some data -> absent_or_empty data ->
   exists e, fst (getCurrentConditions net locationKey w) = Err e /\
             kind e = UpstreamProtocolError) /\
  (forall first rest, json r = Some (VArr (first :: rest)) ->
   fst (getCurrentConditions net locationKey w) = Ok first) /\
  (json r = None ->
   fst (getCurrentConditions net locationKey w) = Err JsonError /\
   kind JsonError = Unclassified).
Proof.
  intros Hkey Hnet Hok. unfold getCurrentConditions.
  rewrite (invalid_key_valid _ Hkey). unfold_monad.
  rewrite (fetch_in_time _ _ _ w Hnet), Hok. cbn [negb].
  split; [|split].
  - intros data Hjson Habsent. rewrite Hjson.
    exists MissingCurrentConditions. split; [|reflexivity].
    destruct Habsent as [Hnot | ->]; [|reflexivity].
    destruct data as [| |b|n|s|l|props]; try reflexivity.
    + destruct (negb (truthy (VBool b)) || negb (isArray (VBool b)) ||
                (array_length (VBool b) =? 0)) eqn:E; [reflexivity|].
      cbn in E. rewrite orb_true_r in E. discriminate E.
    + destruct (negb (truthy (VNum n)) || negb (isArray (VNum n)) ||
                (array_length (VNum n) =? 0)) eqn:E; [reflexivity|].
      cbn in E. rewrite orb_true_r in E. discriminate E.
    + destruct (negb (truthy (VStr s)) || negb (isArray (VStr s)) ||
                (array_length (VStr s) =? 0)) eqn:E; [reflexivity|].
      cbn in E. rewrite orb_true_r in E. discriminate E.
    + exfalso. apply (Hnot l). reflexivity.
  - intros first rest Hjson. rewrite Hjson. reflexivity.
  - intros Hjson. rewrite Hjson. split; reflexivity.
Qed.

Lemma getCurrentConditions_first_or_protocol_error_witness :
  (exists e,
     fst (getCurrentConditions
            (Scenario.serving (Outcome 80 (Responds (Scenario.ok_json (VArr []))))
               (Scenario.forecast_ok Scenario.five_days) (Scenario.details_ok 60))
            Scenario.key Scenario.start) = Err e /\
     kind e = UpstreamProtocolError) /\
  fst (getCurrentConditions (Scenario.healthy Scenario.five_days) Scenario.key Scenario.start) =
    Ok (Typed.conditions (Scenario.observation None)).
Proof.
  split.
  - apply (getCurrentConditions_first_or_protocol_error
             (Scenario.serving (Outcome 80 (Responds (Scenario.ok_json (VArr []))))
                (Scenario.forecast_ok Scenario.five_days) (Scenario.details_ok 60))
             Scenario.key (Scenario.ok_json (VArr [])) Scenario.start) with (data := VArr []).
    + exists "224758". split; [reflexivity | discriminate].
    + split; reflexivity.
    + reflexivity.
    + reflexivity.
    + right. reflexivity.
  - apply (getCurrentConditions_first_or_protocol_error
             (Scenario.healthy Scenario.five_days) Scenario.key
             (Scenario.ok_json (VArr [Typed.conditions (Scenario.observation None)]))
             Scenario.start) with (rest := []).
    + exists "224758". split; [reflexivity | discriminate].
    + split; reflexivity.
    + reflexivity.
    + reflexivity.
Defined.

(** ** Failures of the provider *)

Lemma ApiError_carries (r : response) :
  carries_status_and_detail r (ApiError (status r) (text_or (text r) (statusText r))).
Proof.
  unfold carries_status_and_detail, text_or. cbn. repeat split.
  - intros Hne. apply String.eqb_neq in Hne. rewrite Hne. reflexivity.
  - intros ->. reflexivity.
Qed.

(** A timely non-2xx reply makes each of the three methods throw the
    API error built from that reply. *)
Lemma getLocationKey_non_success
    (net : provider) (lat lon : value) (r : response) (w : world) :
  finite_in (-90) 90 lat -> finite_in (-180) 180 lon ->
  responds_in_time net (GeopositionSearch lat lon) r ->
  ok r = false ->
  fst (getLocationKey net lat lon w) =
    Err (ApiError (status r) (text_or (text r) (statusText r))).
Proof.
  intros Hlat Hlon Hnet Hok. unfold getLocationKey.
  apply (invalid_coordinate_false_iff 90) in Hlat.
  apply (invalid_coordinate_false_iff 180) in Hlon.
  rewrite Hlat, Hlon. unfold_monad.
  rewrite (fetch_in_time _ _ _ w Hnet), Hok. reflexivity.
Qed.

Lemma getCurrentConditions_non_success
    (net : provider) (locationKey : value) (r : response) (w : world) :
  valid_key locationKey ->
  responds_in_time net (CurrentConditions locationKey) r ->
  ok r = false ->
  fst (getCurrentConditions net locationKey w) =
    Err (ApiError (status r) (text_or (text r) (statusText r))).
Proof.
  intros Hkey Hnet Hok. unfold getCurrentConditions.
  rewrite (invalid_key_valid _ Hkey). unfold_monad.
  rewrite (fetch_in_time _ _ _ w Hnet), Hok. reflexivity.
Qed.

Lemma getForecast_non_success
    (net : provider) (locationKey days : value) (r : response) (w : world) :
  valid_key locationKey -> finite_in 1 15 days ->
  responds_in_time net (DailyForecast days locationKey) r ->
  ok r = false ->
  fst (getForecast net locationKey days w) =
    Err (ApiError (status r) (text_or (text r) (statusText r))).
Proof.
  intros Hkey Hin Hnet Hok. unfold getForecast.
  rewrite (finite_in_not_undefined _ _ _ Hin), (invalid_key_valid _ Hkey),
    (invalid_days_inside _ Hin).
  unfold_monad. rewrite (fetch_in_time _ _ _ w Hnet), Hok. reflexivity.
Qed.

(** Once the key is resolved and both second-stage calls have succeeded,
    [getWeatherForecast] depends on the details reply alone, which it awaits
    without a signal. *)
Lemma getWeatherForecast_details_stage
    (net : provider) (lat lon days locationKey current forecast : value)
    (w wk wp : world) (r : response) :
  getLocationKey net lat lon w = (Ok locationKey, wk) ->
  promise_all (getCurrentConditions net locationKey)
              (getForecast net locationKey (default_param days (VNum (of_Z 5)))) wk =
    (Ok (current, forecast), wp) ->
  answer (net (LocationDetails locationKey)) = Responds r ->
  getWeatherForecast net lat lon days w =
    (if ok r then
       match json r with
       | Some location =>
           Ok (VObj [("location", location); ("current", current); ("forecast", forecast)])
       | None => Err JsonError
       end
     else Err (LocationDetailsFailed (status r)),
     World (now wp + latency (net (LocationDetails locationKey))
            + (if ok r then body_ms r else 0))%N
           (calls wp ++ [Request (LocationDetails locationKey) false])).
Proof.
  intros Hkey Hall Hans. unfold getWeatherForecast. cbv zeta.
  unfold bind at 1. rewrite Hkey. unfold bind at 1. rewrite Hall.
  unfold bind at 1. rewrite (fetch_unbounded _ _ _ wp Hans).
  destruct (ok r); [|rewrite N.add_0_r; reflexivity]. cbn [negb]. unfold_monad.
  destruct (json r); reflexivity.
Qed.

(** The failure of C7 as stated: the location-details request is answered
    401 with the body "Api Authorization failed"; [getWeatherForecast] fails
    with an error that carries the status code, and neither the body nor
    the status text. *)
Lemma getWeatherForecast_details_401_drops_body :
  fst (getWeatherForecast
         (Scenario.serving Scenario.current_ok (Scenario.forecast_ok Scenario.five_days)
            (Outcome 30 (Responds Scenario.unauthorized)))
         NAIROBI_LAT NAIROBI_LON (VNum (of_Z 5)) Scenario.start) =
    Err (LocationDetailsFailed 401) /\
  ~ carries_status_and_detail Scenario.unauthorized (LocationDetailsFailed 401).
Proof.
  split.
  - vm_compute. reflexivity.
  - intros (_ & _ & Hbody & _).
    assert (H : carried_detail (LocationDetailsFailed 401) = Some (text Scenario.unauthorized))
      by (apply Hbody; discriminate).
    discriminate H.
Qed.

(** C7 (amended). A timely non-success reply to the location-key, the
    current-conditions or the forecast request makes the method fail with an
    [UpstreamError] that carries the status code and the response body, or
    the status text when the body is empty.  A non-success reply to the
    location-details request of [getWeatherForecast] makes it fail with an
    [UpstreamError] that carries the status code only.  In every case a 401
    reply yields an [UpstreamError] with status code 401. *)
Theorem non_success_status_is_upstream_error
    (net : provider) (r : response) (w : world) :
  ok r = false ->
  (forall lat lon,
     finite_in (-90) 90 lat -> finite_in (-180) 180 lon ->
     responds_in_time net (GeopositionSearch lat lon) r ->
     exists e, fst (getLocationKey net lat lon w) = Err e /\
               carries_status_and_detail r e) /\
  (forall locationKey,
     valid_key locationKey ->
     responds_in_time net (CurrentConditions locationKey) r ->
     exists e, fst (getCurrentConditions net locationKey w) = Err e /\
               carries_status_and_detail r e) /\
  (forall locationKey days,
     valid_key locationKey -> finite_in 1 15 days ->
     responds_in_time net (DailyForecast days locationKey) r ->
     exists e, fst (getForecast net locationKey days w) = Err e /\
               carries_status_and_detail r e) /\
  (forall lat lon days locationKey current forecast wk wp,
     getLocationKey net lat lon w = (Ok locationKey, wk) ->
     promise_all (getCurrentConditions net locationKey)
                 (getForecast net locationKey (default_param days (VNum (of_Z 5)))) wk =
       (Ok (current, forecast), wp) ->
     answer (net (LocationDetails locationKey)) = Responds r ->
     exists e, fst (getWeatherForecast net lat lon days w) = Err e /\
               kind e = UpstreamError /\
               carried_status e = Some (status r) /\
               carried_detail e = None).
Proof.
  intros Hok. repeat split.
  - intros lat lon Hlat Hlon Hnet. eexists. split.
    + apply (getLocationKey_non_success net lat lon r w Hlat Hlon Hnet Hok).
    + apply ApiError_carries.
  - intros locationKey Hkey Hnet. eexists. split.
    + apply (getCurrentConditions_non_success net locationKey r w Hkey Hnet Hok).
    + apply ApiError_carries.
  - intros locationKey days Hkey Hin Hnet. eexists. split.
    + apply (getForecast_non_success net locationKey days r w Hkey Hin Hnet Hok).
    + apply ApiError_carries.
  - intros lat lon days locationKey current forecast wk wp Hk Hall Hans.
    rewrite (getWeatherForecast_details_stage net lat lon days locationKey current forecast
               w wk wp r Hk Hall Hans), Hok.
    exists (LocationDetailsFailed (status r)). repeat split.
Qed.

Lemma non_success_status_is_upstream_error_witness :
  exists e,
    fst (getForecast
           (Scenario.serving Scenario.current_ok (Outcome 30 (Responds Scenario.unauthorized))
              (Scenario.details_ok 60))
           Scenario.key (VNum (of_Z 5)) Scenario.start) = Err e /\
    carries_status_and_detail Scenario.unauthorized e.
Proof.
  apply (non_success_status_is_upstream_error
           (Scenario.serving Scenario.current_ok (Outcome 30 (Responds Scenario.unauthorized))
              (Scenario.details_ok 60))
           Scenario.unauthorized Scenario.start).
  - reflexivity.
  - exists "224758". split; [reflexivity | discriminate].
  - exists (inject_Z 5). split; [reflexivity|]. split; discriminate.
  - split; reflexivity.
Defined.

(** ** The 30-second limit *)

(** A reply that is not there after 30 s makes each of the three methods
    fail with the timeout error, 30 s after the call. *)
Lemma getLocationKey_times_out
    (net : provider) (lat lon : value) (w : world) :
  finite_in (-90) 90 lat -> finite_in (-180) 180 lon ->
  (timeout_ms <= latency (net (GeopositionSearch lat lon)))%N ->
  getLocationKey net lat lon w =
    (Err RequestTimeout,
     World (now w + timeout_ms)%N (calls w ++ [Request (GeopositionSearch lat lon) true])).
Proof.
  intros Hlat Hlon Hlate. unfold getLocationKey.
  apply (invalid_coordinate_false_iff 90) in Hlat.
  apply (invalid_coordinate_false_iff 180) in Hlon.
  rewrite Hlat, Hlon. unfold_monad. rewrite (fetch_late _ _ w Hlate). reflexivity.
Qed.

Lemma getCurrentConditions_times_out
    (net : provider) (locationKey : value) (w : world) :
  valid_key locationKey ->
  (timeout_ms <= latency (net (CurrentConditions locationKey)))%N ->
  getCurrentConditions net locationKey w =
    (Err RequestTimeout,
     World (now w + timeout_ms)%N (calls w ++ [Request (CurrentConditions locationKey) true])).
Proof.
  intros Hkey Hlate. unfold getCurrentConditions.
  rewrite (invalid_key_valid _ Hkey). unfold_monad.
  rewrite (fetch_late _ _ w Hlate). reflexivity.
Qed.

Lemma getForecast_times_out
    (net : provider) (locationKey days : value) (w : world) :
  valid_key locationKey -> finite_in 1 15 days ->
  (timeout_ms <= latency (net (DailyForecast days locationKey)))%N ->
  getForecast net locationKey days w =
    (Err RequestTimeout,
     World (now w + timeout_ms)%N
           (calls w ++ [Request (DailyForecast days locationKey) true])).
Proof.
  intros Hkey Hin Hlate. unfold getForecast.
  rewrite (finite_in_not_undefined _ _ _ Hin), (invalid_key_valid _ Hkey),
    (invalid_days_inside _ Hin).
  unfold_monad. rewrite (fetch_late _ _ w Hlate). reflexivity.
Qed.

(** The location-details request of [getWeatherForecast] carries no signal:
    whatever the latency of a 2xx JSON reply, the bundle is returned once
    it arrives, and never the timeout error. *)
Lemma getWeatherForecast_details_unbounded
    (net : provider) (lat lon days locationKey current forecast location : value)
    (w wk wp : world) (r : response) :
  getLocationKey net lat lon w = (Ok locationKey, wk) ->
  promise_all (getCurrentConditions net locationKey)
              (getForecast net locationKey (default_param days (VNum (of_Z 5)))) wk =
    (Ok (current, forecast), wp) ->
  answer (net (LocationDetails locationKey)) = Responds r ->
  ok r = true ->
  json r = Some location ->
  getWeatherForecast net lat lon days w =
    (Ok (VObj [("location", location); ("current", current); ("forecast", forecast)]),
     World (now wp + latency (net (LocationDetails locationKey)) + body_ms r)%N
           (calls wp ++ [Request (LocationDetails locationKey) false])).
Proof.
  intros Hk Hall Hans Hok Hjson.
  rewrite (getWeatherForecast_details_stage net lat lon days locationKey current forecast
             w wk wp r Hk Hall Hans), Hok, Hjson.
  reflexivity.
Qed.

(** C2 (the code departs from it). The location-details reply takes 60 s.
    [getWeatherForecast] does not fail with the timeout error 30 s after
    that request: it waits the whole minute and returns the bundle, the
    clock standing at 120 + 95 + 60000 ms.  The request went out without an
    abort signal, unlike the three before it. *)
Theorem getWeatherForecast_details_exceeds_limit :
  getWeatherForecast
    (Scenario.serving Scenario.current_ok (Scenario.forecast_ok Scenario.five_days)
       (Scenario.details_ok 60000))
    NAIROBI_LAT NAIROBI_LON (VNum (of_Z 5)) Scenario.start =
  (Ok (Typed.bundle Scenario.nairobi (Scenario.observation None) Scenario.five_days),
   World 60215 [Request (GeopositionSearch NAIROBI_LAT NAIROBI_LON) true;
                Request (CurrentConditions Scenario.key) true;
                Request (DailyForecast (VNum (of_Z 5)) Scenario.key) true;
                Request (LocationDetails Scenario.key) false]).
Proof. vm_compute. reflexivity. Qed.

(** ** Shaping the current conditions *)

(** The failure of C8 as stated: [PrecipitationType] is present and is the
    empty string; the document carries ["none"], not that value. *)
Lemma shapeCurrentConditionsResponse_empty_type_replaced :
  get (Typed.conditions (Scenario.observation (Some ""))) "PrecipitationType" = Ok (VStr "") /\
  exists doc,
    shapeCurrentConditionsResponse NAIROBI_LAT NAIROBI_LON
      (Typed.conditions (Scenario.observation (Some ""))) = Ok doc /\
    path doc ["current"; "precipitation_type"] = Ok (VStr "none").
Proof.
  split; [reflexivity|]. eexists. split; vm_compute; reflexivity.
Qed.

(** C8 (amended). For conditions of the declared type,
    [shapeCurrentConditionsResponse] produces a document whose
    [precipitation_type] is the literal ["none"] when [PrecipitationType] is
    absent or is the empty string, and is the value of [PrecipitationType]
    when that is present and not empty. *)
Theorem shapeCurrentConditionsResponse_precipitation_type
    (lat lon : value) (c : Typed.AccuWeatherCurrentConditions) :
  exists doc,
    shapeCurrentConditionsResponse lat lon (Typed.conditions c) = Ok doc /\
    (Typed.PrecipitationType c = None ->
     path doc ["current"; "precipitation_type"] = Ok (VStr "none")) /\
    (Typed.PrecipitationType c = Some "" ->
     path doc ["current"; "precipitation_type"] = Ok (VStr "none")) /\
    (forall s, Typed.PrecipitationType c = Some s -> s <> "" ->
     path doc ["current"; "precipitation_type"] = Ok (VStr s)).
Proof.
  destruct c as [observed metric imperial wtext icon humidity speed degrees localized
                 ptype has].
  destruct ptype as [s|]; eexists; (split; [reflexivity|]); cbn;
    repeat split; try discriminate; try reflexivity.
  - intros H. injection H as ->. reflexivity.
  - intros s' H Hne. injection H as ->.
    unfold or_else. cbn. apply String.eqb_neq in Hne. rewrite Hne. reflexivity.
Qed.

Lemma shapeCurrentConditionsResponse_precipitation_type_witness :
  exists doc,
    shapeCurrentConditionsResponse NAIROBI_LAT NAIROBI_LON
      (Typed.conditions (Scenario.observation (Some "Rain"))) = Ok doc /\
    path doc ["current"; "precipitation_type"] = Ok (VStr "Rain").
Proof.
  destruct (shapeCurrentConditionsResponse_precipitation_type NAIROBI_LAT NAIROBI_LON
              (Scenario.observation (Some "Rain"))) as [doc [Hdoc [_ [_ Hpresent]]]].
  exists doc. split; [exact Hdoc|].
  apply Hpresent; [reflexivity | discriminate].
Defined.

(** ** Shaping the forecast *)

Lemma digit_is_not_T (c : ascii) : is_digit c = true -> Ascii.eqb c "T" = false.
Proof.
  destruct c as [[] [] [] [] [] [] [] []]; cbn; intros H;
    try reflexivity; discriminate H.
Qed.

Lemma dash_is_not_T (c : ascii) : Ascii.eqb c "-" = true -> Ascii.eqb c "T" = false.
Proof. intros H. apply Ascii.eqb_eq in H. subst c. reflexivity. Qed.

Lemma calendar_date_free_of_T (d : string) :
  is_calendar_date d = true -> free_of_T d = true.
Proof.
  unfold is_calendar_date.
  destruct d as [|c1 [|c2 [|c3 [|c4 [|c5 [|c6 [|c7 [|c8 [|c9 [|c10 [|c11 d]]]]]]]]]]];
    cbn [list_ascii_of_string]; try discriminate.
  intros H. do 9 (apply andb_true_iff in H; destruct H as [H ?]).
  cbn [free_of_T].
  repeat match goal with
         | Hd : is_digit ?c = true |- _ => rewrite (digit_is_not_T c Hd); clear Hd
         | Hd : Ascii.eqb ?c "-" = true |- _ => rewrite (dash_is_not_T c Hd); clear Hd
         end.
  reflexivity.
Qed.

(** Splitting at [T] a string whose first [T] comes right after [d]. *)
Lemma split_after_prefix (d t : string) :
  free_of_T d = true ->
  split "T" (d ++ String "T" t)%string = d :: split "T" t.
Proof.
  induction d as [|c d IH]; cbn [free_of_T append split]; intros H.
  - reflexivity.
  - apply andb_true_iff in H. destruct H as [Hc Hd].
    apply negb_true_iff in Hc. rewrite Hc, (IH Hd). reflexivity.
Qed.

(** [Date.split('T')[0]] of an ISO date-time is its calendar date. *)
Lemma split_T_first_iso (d s : string) :
  iso_date_time d s -> split_T_first (VStr s) = Ok (VStr d).
Proof.
  intros [Hd [t ->]]. unfold split_T_first.
  change (d ++ "T" ++ t)%string with (d ++ String "T" t)%string.
  rewrite (split_after_prefix d t (calendar_date_free_of_T d Hd)). reflexivity.
Qed.

(** One day of the declared type is shaped without failure, its [date]
    being the calendar date of [Date]. *)
Lemma shape_day_date (f : Typed.AccuWeatherForecast) (d : string) :
  iso_date_time d (Typed.Date f) ->
  exists v, shape_day (Typed.forecast f) = Ok v /\ get v "date" = Ok (VStr d).
Proof.
  intros Hiso. destruct f as [date tmin tmax dicon dphrase dprob dwind nicon nphrase nprob].
  cbn [Typed.Date] in Hiso. unfold shape_day, Typed.forecast.
  cbn [get lookup String.eqb Ascii.eqb Bool.eqb rbind
       Typed.Date Typed.Temperature_Minimum Typed.Temperature_Maximum].
  rewrite (split_T_first_iso d date Hiso). cbn.
  eexists. split; reflexivity.
Qed.

(** Shaping the days of a forecast keeps their number and order. *)
Lemma map_result_shape_day (fs : list Typed.AccuWeatherForecast) (dates : list string) :
  Forall2 (fun f d => iso_date_time d (Typed.Date f)) fs dates ->
  exists shaped,
    map_result shape_day (map Typed.forecast fs) = Ok shaped /\
    Forall2 (fun v d => get v "date" = Ok (VStr d)) shaped dates.
Proof.
  induction 1 as [|f d fs dates Hfd _ IH].
  - exists []. split; [reflexivity | constructor].
  - destruct (shape_day_date f d Hfd) as [v [Hv Hdate]].
    destruct IH as [shaped [Hshaped Hdates]].
    exists (v :: shaped). split.
    + cbn [map map_result]. rewrite Hv. cbn [rbind]. rewrite Hshaped. reflexivity.
    + constructor; assumption.
Qed.

Lemma index_first (l : list value) : index l 0 = hd VUndefined l.
Proof. destruct l; reflexivity. Qed.

Lemma index_last (l : list value) :
  l <> [] -> index l (Z.of_nat (List.length l) - 1) = last l VUndefined.
Proof.
  intros Hne. unfold index.
  destruct (Z.ltb_spec (Z.of_nat (List.length l) - 1) 0) as [Hlt|_].
  - destruct l; [contradiction | cbn [List.length] in Hlt; lia].
  - replace (Z.to_nat (Z.of_nat (List.length l) - 1)) with (pred (List.length l)) by lia.
    clear Hne. induction l as [|x [|y l] IH]; try reflexivity.
    exact IH.
Qed.

(** C9. For a bundle of the declared types with at least one forecast
    entry, each entry's [Date] being an ISO date-time,
    [shapeForecastResponse] produces a document whose forecast entries have
    as [date] the calendar date alone, in the same order, and whose
    [period.start_date] and [period.end_date] are the [date] of the first
    and of the last shaped entry. *)
Theorem shapeForecastResponse_dates
    (lat lon days : value) (loc : Typed.AccuWeatherLocation)
    (cur : Typed.AccuWeatherCurrentConditions)
    (fs : list Typed.AccuWeatherForecast) (dates : list string) :
  fs <> [] ->
  Forall2 (fun f d => iso_date_time d (Typed.Date f)) fs dates ->
  exists doc shaped,
    shapeForecastResponse lat lon days (Typed.bundle loc cur fs) = Ok doc /\
    get doc "forecast" = Ok (VArr shaped) /\
    Forall2 (fun v d => get v "date" = Ok (VStr d)) shaped dates /\
    path doc ["period"; "start_date"] = get (hd VUndefined shaped) "date" /\
    path doc ["period"; "end_date"] = get (last shaped VUndefined) "date" /\
    path doc ["period"; "start_date"] = Ok (VStr (hd "" dates)) /\
    path doc ["period"; "end_date"] = Ok (VStr (last dates "")).
Proof.
  intros Hne Hiso.
  destruct (map_result_shape_day fs dates Hiso) as [shaped [Hshaped Hdates]].
  assert (Hshaped_ne : shaped <> []).
  { intros ->. inversion Hdates; subst. inversion Hiso; subst. contradiction. }
  assert (Hfirst : get (hd VUndefined shaped) "date" = Ok (VStr (hd "" dates))).
  { destruct Hdates; [contradiction | assumption]. }
  assert (Hlast : get (last shaped VUndefined) "date" = Ok (VStr (last dates ""))).
  { destruct Hdates as [|v d shaped' dates' Hvd Hrest]; [contradiction|].
    clear - Hvd Hrest. revert v d Hvd.
    induction Hrest as [|v' d' shaped'' dates'' Hvd' _ IH]; intros v d Hvd; [exact Hvd|].
    change (last (v :: v' :: shaped'') VUndefined) with (last (v' :: shaped'') VUndefined).
    change (last (d :: d' :: dates'') "") with (last (d' :: dates'') "").
    apply IH. exact Hvd'. }
  destruct loc as [k lname cid cname aid aname].
  destruct cur as [observed metric imperial wtext icon humidity speed degrees localized
                   ptype has].
  unfold shapeForecastResponse, Typed.bundle.
  cbn [get lookup String.eqb Ascii.eqb Bool.eqb rbind map_forecast].
  rewrite Hshaped. cbn [rbind]. cbn -[index last hd].
  rewrite index_first, (index_last shaped Hshaped_ne), Hfirst, Hlast. cbn [rbind].
  eexists. exists shaped. split; [reflexivity|].
  cbn. rewrite Hfirst, Hlast. repeat split. exact Hdates.
Qed.

Lemma shapeForecastResponse_dates_witness :
  exists doc shaped,
    shapeForecastResponse NAIROBI_LAT NAIROBI_LON (VNum (of_Z 1))
      (Typed.bundle Scenario.nairobi (Scenario.observation None)
         [Scenario.daily "2025-11-05T00:00:00" 15 26]) = Ok doc /\
    get doc "forecast" = Ok (VArr shaped) /\
    Forall2 (fun v d => get v "date" = Ok (VStr d)) shaped ["2025-11-05"] /\
    path doc ["period"; "start_date"] = get (hd VUndefined shaped) "date" /\
    path doc ["period"; "end_date"] = get (last shaped VUndefined) "date" /\
    path doc ["period"; "start_date"] = Ok (VStr "2025-11-05") /\
    path doc ["period"; "end_date"] = Ok (VStr "2025-11-05").
Proof.
  apply (shapeForecastResponse_dates NAIROBI_LAT NAIROBI_LON (VNum (of_Z 1))
           Scenario.nairobi (Scenario.observation None)
           [Scenario.daily "2025-11-05T00:00:00" 15 26] ["2025-11-05"]).
  - discriminate.
  - constructor; [|constructor].
    split; [reflexivity|]. exists "00:00:00". reflexivity.
Defined.

(** C10. There is a successful provider reply, a 2xx whose [DailyForecasts]
    is the empty list, for which [getForecast] returns the empty sequence
    without any protocol error; shaping a bundle with that forecast then
    reads [forecast[0].date] on an empty array, which throws, whatever the
    rest of the bundle; the forecast handler ends in its [catch] with that
    error.  Shaping needs a non-empty forecast. *)
Theorem empty_forecast_breaks_shaping :
  exists (net : provider) (r : response),
    answer (net (DailyForecast (VNum (of_Z 5)) Scenario.key)) = Responds r /\
    ok r = true /\
    json r = Some (VObj [("DailyForecasts", VArr [])]) /\
    fst (getForecast net Scenario.key (VNum (of_Z 5)) Scenario.start) = Ok (VArr []) /\
    (forall lat lon days loc cur,
       shapeForecastResponse lat lon days (Typed.bundle loc cur []) =
         Err (TypeError "date")) /\
    fst (get_accuweather_weather_forecast net true VUndefined VUndefined
           VUndefined VUndefined (VNum (of_Z 5)) Scenario.start) =
      Ok (IsError (Caught (TypeError "date"))).
Proof.
  exists (Scenario.healthy []), (Scenario.ok_json (Scenario.forecasts_body [])).
  repeat split; vm_compute; reflexivity.
Qed.

(** [NaN] is neither below 1 nor above 15 for the comparisons of the day
    check, which has no [isNaN] test of its own: the forecast is requested
    for it, and [slice(0, NaN)] keeps nothing of the reply. *)
Lemma getForecast_NaN_days_requested :
  getForecast (Scenario.healthy Scenario.five_days) Scenario.key (VNum NaN) Scenario.start =
    (Ok (VArr []), World 95 [Request (DailyForecast (VNum NaN) Scenario.key) true]).
Proof. vm_compute. reflexivity. Qed.

(** * Further properties of the client *)

(** ** Resolving the location key *)

(** A truthy [Key] can only be read from an object, which is truthy. *)
Lemma truthy_key_truthy_body (data key : value) :
  get data "Key" = Ok key -> truthy key = true -> truthy data = true.
Proof.
  destruct data; cbn; intros H Hk; try reflexivity; try discriminate H;
    injection H as <-; discriminate Hk.
Qed.

Lemma valid_coordinates (lat lon : value) :
  finite_in (-90) 90 lat -> finite_in (-180) 180 lon ->
  invalid_coordinate lat 90 = false /\ invalid_coordinate lon 180 = false.
Proof.
  intros Hlat Hlon. split.
  - apply (invalid_coordinate_false_iff 90). exact Hlat.
  - apply (invalid_coordinate_false_iff 180). exact Hlon.
Qed.

(** The body of [getLocationKey] once a timely 2xx reply has been parsed. *)
Lemma getLocationKey_parsed
    (net : provider) (lat lon data : value) (r : response) (w : world) :
  finite_in (-90) 90 lat -> finite_in (-180) 180 lon ->
  responds_in_time net (GeopositionSearch lat lon) r ->
  ok r = true ->
  json r = Some data ->
  getLocationKey net lat lon w =
    try_catch
      (if negb (truthy data) then throw MissingLocationKey else
       key <- lift (get data "Key") ;;
       if negb (truthy key) then throw MissingLocationKey else
       _ <- interpolate key ;;
       name <- lift (get data "LocalizedName") ;;
       _ <- interpolate name ;;
       country <- lift (get data "Country") ;;
       countryName <- lift (get country "LocalizedName") ;;
       _ <- interpolate countryName ;;
       ret key)
      on_abort
      (World (now w + latency (net (GeopositionSearch lat lon)) + body_ms r)%N
             (calls w ++ [Request (GeopositionSearch lat lon) true])).
Proof.
  intros Hlat Hlon Hnet Hok Hjson. unfold getLocationKey.
  destruct (valid_coordinates lat lon Hlat Hlon) as [-> ->].
  unfold_monad. rewrite (fetch_in_time _ _ _ w Hnet), Hok, Hjson.
  reflexivity.
Qed.

(** X1. With valid coordinates and a timely 2xx reply whose body has a
    truthy [Key], a [Country] that is neither absent nor [null], and, for
    the log line, a [Key], a [LocalizedName] and a [Country.LocalizedName]
    that convert to strings (as every string, number, boolean, [null] and
    [undefined] does), [getLocationKey] returns that [Key] as it is (a
    string or not), having issued the one geoposition request; the time
    taken is that of the response and of reading its body. *)
Theorem getLocationKey_returns_key
    (net : provider) (lat lon data key name country countryName : value)
    (r : response) (w : world) :
  finite_in (-90) 90 lat -> finite_in (-180) 180 lon ->
  responds_in_time net (GeopositionSearch lat lon) r ->
  ok r = true ->
  json r = Some data ->
  get data "Key" = Ok key ->
  truthy key = true ->
  converts key = true ->
  get data "LocalizedName" = Ok name ->
  converts name = true ->
  get data "Country" = Ok country ->
  ~ is_nullish country ->
  get country "LocalizedName" = Ok countryName ->
  converts countryName = true ->
  getLocationKey net lat lon w =
    (Ok key,
     World (now w + latency (net (GeopositionSearch lat lon)) + body_ms r)%N
           (calls w ++ [Request (GeopositionSearch lat lon) true])).
Proof.
  intros Hlat Hlon Hnet Hok Hjson Hkey Htruthy Hck Hname Hcn Hcountry Hnn Hcname Hcc.
  rewrite (getLocationKey_parsed net lat lon data r w Hlat Hlon Hnet Hok Hjson).
  unfold_monad. rewrite (truthy_key_truthy_body data key Hkey Htruthy), Hkey, Htruthy.
  cbn [negb]. rewrite Hck, Hname, Hcn, Hcountry, Hcname, Hcc. reflexivity.
Qed.

Lemma getLocationKey_returns_key_witness :
  getLocationKey (Incident.resolving_to Incident.numeric_key_body)
      NAIROBI_LAT NAIROBI_LON Scenario.start =
    (Ok (VNum (of_Z 224758)),
     World (0 + 120 + 0) ([] ++ [Request (GeopositionSearch NAIROBI_LAT NAIROBI_LON) true])).
Proof.
  apply (getLocationKey_returns_key (Incident.resolving_to Incident.numeric_key_body)
           NAIROBI_LAT NAIROBI_LON Incident.numeric_key_body (VNum (of_Z 224758))
           (VStr "Nairobi")
           (VObj [("ID", VStr "KE"); ("LocalizedName", VStr "Kenya")]) (VStr "Kenya")
           (Scenario.ok_json Incident.numeric_key_body) Scenario.start).
  - exists (-12864 # 10000). split; [reflexivity|]. split; discriminate.
  - exists (368172 # 10000). split; [reflexivity|]. split; discriminate.
  - split; reflexivity.
  - reflexivity.
  - reflexivity.
  - reflexivity.
  - reflexivity.
  - reflexivity.
  - reflexivity.
  - reflexivity.
  - reflexivity.
  - intros [H | H]; discriminate H.
  - reflexivity.
  - reflexivity.
Defined.

(** X2. With valid coordinates and a timely 2xx reply whose JSON body is
    falsy or has no truthy [Key] (absent, [null], empty, zero),
    [getLocationKey] fails with the missing-key error, an
    [UpstreamProtocolError]. *)
Theorem getLocationKey_missing_key
    (net : provider) (lat lon data : value) (r : response) (w : world) :
  finite_in (-90) 90 lat -> finite_in (-180) 180 lon ->
  responds_in_time net (GeopositionSearch lat lon) r ->
  ok r = true ->
  json r = Some data ->
  lacks_key data ->
  fst (getLocationKey net lat lon w) = Err MissingLocationKey /\
  kind MissingLocationKey = UpstreamProtocolError.
Proof.
  intros Hlat Hlon Hnet Hok Hjson Hlacks. split; [|reflexivity].
  rewrite (getLocationKey_parsed net lat lon data r w Hlat Hlon Hnet Hok Hjson).
  unfold_monad. destruct (truthy data) eqn:Et; [|reflexivity].
  destruct Hlacks as [Hf | [k [Hk Hkf]]]; [congruence|].
  cbn [negb]. rewrite Hk, Hkf. reflexivity.
Qed.

Lemma getLocationKey_missing_key_witness :
  fst (getLocationKey (Incident.answering (Some (VObj [("Key", VStr "")])))
         NAIROBI_LAT NAIROBI_LON Scenario.start) = Err MissingLocationKey /\
  kind MissingLocationKey = UpstreamProtocolError.
Proof.
  apply (getLocationKey_missing_key (Incident.answering (Some (VObj [("Key", VStr "")])))
           NAIROBI_LAT NAIROBI_LON (VObj [("Key", VStr "")])
           (Response 200 "OK" "" (Some (VObj [("Key", VStr "")])) 0) Scenario.start).
  - exists (-12864 # 10000). split; [reflexivity|]. split; discriminate.
  - exists (368172 # 10000). split; [reflexivity|]. split; discriminate.
  - split; reflexivity.
  - reflexivity.
  - reflexivity.
  - right. exists (VStr ""). split; reflexivity.
Defined.

(** X3. A reply that has a truthy [Key] but whose [Country] is absent or
    [null] does not give the key: the log line throws inside the [try], and
    [getLocationKey] fails with a [TypeError], which is none of the errors
    of the taxonomy.  When [Key] and [LocalizedName] convert to strings (as
    strings and numbers do) it is the [TypeError] of reading
    [data.Country.LocalizedName]. *)
Theorem getLocationKey_needs_country
    (net : provider) (lat lon data key country : value) (r : response) (w : world) :
  finite_in (-90) 90 lat -> finite_in (-180) 180 lon ->
  responds_in_time net (GeopositionSearch lat lon) r ->
  ok r = true ->
  json r = Some data ->
  get data "Key" = Ok key ->
  truthy key = true ->
  get data "Country" = Ok country ->
  is_nullish country ->
  (exists reading : string,
     fst (getLocationKey net lat lon w) = Err (TypeError reading) /\
     kind (TypeError reading) = Unclassified) /\
  (forall name : value,
     get data "LocalizedName" = Ok name ->
     converts key = true -> converts name = true ->
     fst (getLocationKey net lat lon w) = Err (TypeError "LocalizedName")).
Proof.
  intros Hlat Hlon Hnet Hok Hjson Hkey Htruthy Hcountry Hnull.
  rewrite (getLocationKey_parsed net lat lon data r w Hlat Hlon Hnet Hok Hjson).
  unfold_monad. rewrite (truthy_key_truthy_body data key Hkey Htruthy), Hkey, Htruthy.
  cbn [negb].
  assert (Hname : exists name, get data "LocalizedName" = Ok name).
  { destruct data; cbn in Hkey |- *; try discriminate Hkey; eauto. }
  destruct Hname as [name Hname]. rewrite Hname, Hcountry.
  assert (Hread : get country "LocalizedName" = Err (TypeError "LocalizedName"))
    by (destruct Hnull as [-> | ->]; reflexivity).
  rewrite Hread. unfold ConversionError.
  split.
  - destruct (converts key), (converts name);
      cbn [fst error_name String.eqb Ascii.eqb Bool.eqb]; eexists; split; reflexivity.
  - intros name' Hname' Hck Hcn. injection Hname' as <-. rewrite Hck, Hcn. reflexivity.
Qed.

Lemma getLocationKey_needs_country_witness :
  fst (getLocationKey (Incident.resolving_to Incident.no_country_body)
         NAIROBI_LAT NAIROBI_LON Scenario.start) = Err (TypeError "LocalizedName").
Proof.
  apply (getLocationKey_needs_country (Incident.resolving_to Incident.no_country_body)
           NAIROBI_LAT NAIROBI_LON Incident.no_country_body (VStr "224758")
           VUndefined (Scenario.ok_json Incident.no_country_body) Scenario.start)
    with (name := VStr "Nairobi").
  - exists (-12864 # 10000). split; [reflexivity|]. split; discriminate.
  - exists (368172 # 10000). split; [reflexivity|]. split; discriminate.
  - split; reflexivity.
  - reflexivity.
  - reflexivity.
  - reflexivity.
  - reflexivity.
  - reflexivity.
  - left. reflexivity.
  - reflexivity.
  - reflexivity.
  - reflexivity.
Defined.

(** ** The location key as an argument *)

Lemma invalid_key_false_iff (v : value) : invalid_key v = false <-> valid_key v.
Proof.
  split; [|apply invalid_key_valid].
  unfold invalid_key, valid_key. destruct v as [| | | |s| |]; cbn;
    try (rewrite ?orb_true_r; discriminate).
  rewrite orb_false_r, negb_false_iff, negb_true_iff. intros H.
  exists s. split; [reflexivity|]. apply String.eqb_neq. exact H.
Qed.

(** X4. A location key that is not a non-empty string makes
    [getCurrentConditions] and [getForecast] fail with the invalid-key
    error, an [InvalidArgument], in the state they were called in: nothing
    is requested.  In [getForecast] this check comes before the day count,
    whatever that is. *)
Theorem invalid_key_is_rejected
    (net : provider) (locationKey days : value) (w : world) :
  ~ valid_key locationKey ->
  getCurrentConditions net locationKey w = (Err InvalidLocationKey, w) /\
  getForecast net locationKey days w = (Err InvalidLocationKey, w) /\
  kind InvalidLocationKey = InvalidArgument.
Proof.
  intros Hbad.
  assert (Hk : invalid_key locationKey = true).
  { destruct (invalid_key locationKey) eqn:E; [reflexivity|].
    exfalso. apply Hbad, invalid_key_false_iff, E. }
  unfold getCurrentConditions, getForecast. rewrite Hk. repeat split.
Qed.

Lemma invalid_key_is_rejected_witness :
  getCurrentConditions (Scenario.healthy Scenario.five_days) (VNum (of_Z 224758))
      Scenario.start = (Err InvalidLocationKey, Scenario.start) /\
  getForecast (Scenario.healthy Scenario.five_days) (VNum (of_Z 224758)) (VNum (of_Z 99))
      Scenario.start = (Err InvalidLocationKey, Scenario.start) /\
  kind InvalidLocationKey = InvalidArgument.
Proof.
  apply (invalid_key_is_rejected (Scenario.healthy Scenario.five_days)
           (VNum (of_Z 224758)) (VNum (of_Z 99)) Scenario.start).
  intros [s [H _]]. discriminate H.
Defined.

(** ** What the three methods do with each kind of reply *)

Lemma get_error (v : value) (name : string) (e : error) :
  get v name = Err e -> e = TypeError name.
Proof. destruct v; cbn; intros H; try discriminate H; injection H as <-; reflexivity. Qed.

(** Close a goal that says a run whose response came in time did not end
    in the timeout error. *)
Ltac no_timeout :=
  repeat (cbn [fst snd error_name];
          repeat match goal with
                 | H : get _ _ = Err _ |- _ => apply get_error in H; subst
                 | H : (_ =? "AbortError")%string = true |- _ => cbn in H; discriminate H
                 end;
          try (let H := fresh in intros H; discriminate H);
          try case_step).

Section Replies.

Variable net : provider.

Lemma fetch_fails (u : endpoint) (name message : string) (w : world) :
  fails_in_time net u name message ->
  fetch net u (Some timeout_ms) w =
    (Err (FetchError name message),
     World (now w + latency (net u))%N (calls w ++ [Request u true])).
Proof.
  intros [Hlat Hans]. unfold fetch. rewrite Hans.
  destruct (N.leb_spec timeout_ms (latency (net u))); [lia | reflexivity].
Qed.

(** X5. The 30 s limit bounds the wait for the response, not the reading
    of its body.  When [fetch] has not settled after 30 s, each of the three
    methods fails with the timeout error, an [UpstreamTimeout], exactly 30 s
    after the call and with its one request issued.  When the response is
    there in time, the timer is cleared and the method never reports a
    timeout, however long the body takes to read. *)
Theorem every_method_times_out (w : world) :
  (forall lat lon,
     finite_in (-90) 90 lat -> finite_in (-180) 180 lon ->
     too_late net (GeopositionSearch lat lon) ->
     getLocationKey net lat lon w =
       (Err RequestTimeout,
        World (now w + 30000)%N (calls w ++ [Request (GeopositionSearch lat lon) true]))) /\
  (forall locationKey,
     valid_key locationKey ->
     too_late net (CurrentConditions locationKey) ->
     getCurrentConditions net locationKey w =
       (Err RequestTimeout,
        World (now w + 30000)%N (calls w ++ [Request (CurrentConditions locationKey) true]))) /\
  (forall locationKey days,
     valid_key locationKey -> finite_in 1 15 days ->
     too_late net (DailyForecast days locationKey) ->
     getForecast net locationKey days w =
       (Err RequestTimeout,
        World (now w + 30000)%N
              (calls w ++ [Request (DailyForecast days locationKey) true]))) /\
  (forall lat lon r,
     finite_in (-90) 90 lat -> finite_in (-180) 180 lon ->
     responds_in_time net (GeopositionSearch lat lon) r ->
     fst (getLocationKey net lat lon w) <> Err RequestTimeout) /\
  (forall locationKey r,
     valid_key locationKey ->
     responds_in_time net (CurrentConditions locationKey) r ->
     fst (getCurrentConditions net locationKey w) <> Err RequestTimeout) /\
  (forall locationKey days r,
     valid_key locationKey -> finite_in 1 15 days ->
     responds_in_time net (DailyForecast days locationKey) r ->
     fst (getForecast net locationKey days w) <> Err RequestTimeout) /\
  kind RequestTimeout = UpstreamTimeout.
Proof.
  repeat split.
  - intros lat lon Hlat Hlon Hlate.
    apply (getLocationKey_times_out net lat lon w Hlat Hlon Hlate).
  - intros locationKey Hkey Hlate.
    apply (getCurrentConditions_times_out net locationKey w Hkey Hlate).
  - intros locationKey days Hkey Hin Hlate.
    apply (getForecast_times_out net locationKey days w Hkey Hin Hlate).
  - intros lat lon r Hlat Hlon Hnet. unfold getLocationKey.
    destruct (valid_coordinates lat lon Hlat Hlon) as [-> ->].
    unfold_monad. rewrite (fetch_in_time _ _ _ w Hnet). no_timeout.
  - intros locationKey r Hkey Hnet. unfold getCurrentConditions.
    rewrite (invalid_key_valid _ Hkey). unfold_monad.
    rewrite (fetch_in_time _ _ _ w Hnet). no_timeout.
  - intros locationKey days r Hkey Hin Hnet. unfold getForecast.
    rewrite (finite_in_not_undefined _ _ _ Hin), (invalid_key_valid _ Hkey),
      (invalid_days_inside _ Hin).
    unfold_monad. rewrite (fetch_in_time _ _ _ w Hnet). no_timeout.
Qed.

(** X6. A network failure that comes before the limit, and is not an
    abort, is thrown again unchanged by each of the three methods: the
    caller sees the error of [fetch], outside the taxonomy. *)
Theorem network_failure_is_rethrown (name message : string) (w : world) :
  name <> "AbortError" ->
  (forall lat lon,
     finite_in (-90) 90 lat -> finite_in (-180) 180 lon ->
     fails_in_time net (GeopositionSearch lat lon) name message ->
     fst (getLocationKey net lat lon w) = Err (FetchError name message)) /\
  (forall locationKey,
     valid_key locationKey ->
     fails_in_time net (CurrentConditions locationKey) name message ->
     fst (getCurrentConditions net locationKey w) = Err (FetchError name message)) /\
  (forall locationKey days,
     valid_key locationKey -> finite_in 1 15 days ->
     fails_in_time net (DailyForecast days locationKey) name message ->
     fst (getForecast net locationKey days w) = Err (FetchError name message)) /\
  kind (FetchError name message) = Unclassified.
Proof.
  intros Hname. apply String.eqb_neq in Hname. repeat split.
  - intros lat lon Hlat Hlon Hfail. unfold getLocationKey.
    destruct (valid_coordinates lat lon Hlat Hlon) as [-> ->].
    unfold_monad. rewrite (fetch_fails _ _ _ w Hfail).
    cbn [error_name]. rewrite Hname. reflexivity.
  - intros locationKey Hkey Hfail. unfold getCurrentConditions.
    rewrite (invalid_key_valid _ Hkey). unfold_monad.
    rewrite (fetch_fails _ _ _ w Hfail). cbn [error_name]. rewrite Hname. reflexivity.
  - intros locationKey days Hkey Hin Hfail. unfold getForecast.
    rewrite (finite_in_not_undefined _ _ _ Hin), (invalid_key_valid _ Hkey),
      (invalid_days_inside _ Hin).
    unfold_monad. rewrite (fetch_fails _ _ _ w Hfail).
    cbn [error_name]. rewrite Hname. reflexivity.
Qed.

(** X7. A timely 2xx reply whose body is not JSON makes each of the three
    methods fail with the error of [response.json()], passed through as it
    is: not one of the protocol errors the methods raise themselves. *)
Theorem unparsable_body_is_rethrown (r : response) (w : world) :
  ok r = true ->
  json r = None ->
  (forall lat lon,
     finite_in (-90) 90 lat -> finite_in (-180) 180 lon ->
     responds_in_time net (GeopositionSearch lat lon) r ->
     fst (getLocationKey net lat lon w) = Err JsonError) /\
  (forall locationKey,
     valid_key locationKey ->
     responds_in_time net (CurrentConditions locationKey) r ->
     fst (getCurrentConditions net locationKey w) = Err JsonError) /\
  (forall locationKey days,
     valid_key locationKey -> finite_in 1 15 days ->
     responds_in_time net (DailyForecast days locationKey) r ->
     fst (getForecast net locationKey days w) = Err JsonError) /\
  kind JsonError <> UpstreamProtocolError.
Proof.
  intros Hok Hjson. repeat split; try discriminate.
  - intros lat lon Hlat Hlon Hnet. unfold getLocationKey.
    destruct (valid_coordinates lat lon Hlat Hlon) as [-> ->].
    unfold_monad. rewrite (fetch_in_time _ _ _ w Hnet), Hok, Hjson. reflexivity.
  - intros locationKey Hkey Hnet. unfold getCurrentConditions.
    rewrite (invalid_key_valid _ Hkey). unfold_monad.
    rewrite (fetch_in_time _ _ _ w Hnet), Hok, Hjson. reflexivity.
  - intros locationKey days Hkey Hin Hnet. unfold getForecast.
    rewrite (finite_in_not_undefined _ _ _ Hin), (invalid_key_valid _ Hkey),
      (invalid_days_inside _ Hin).
    unfold_monad. rewrite (fetch_in_time _ _ _ w Hnet), Hok, Hjson. reflexivity.
Qed.

(** X8. With a valid key and day count and a timely 2xx reply whose JSON
    body has no [DailyForecasts] array (a falsy body, no such field, or a
    field that is not an array), [getForecast] fails with the
    missing-forecasts error, an [UpstreamProtocolError]. *)
Theorem getForecast_missing_forecasts
    (locationKey days data : value) (r : response) (w : world) :
  valid_key locationKey -> finite_in 1 15 days ->
  responds_in_time net (DailyForecast days locationKey) r ->
  ok r = true ->
  json r = Some data ->
  lacks_forecasts data ->
  fst (getForecast net locationKey days w) = Err MissingDailyForecasts /\
  kind MissingDailyForecasts = UpstreamProtocolError.
Proof.
  intros Hkey Hin Hnet Hok Hjson Hlacks. split; [|reflexivity].
  unfold getForecast.
  rewrite (finite_in_not_undefined _ _ _ Hin), (invalid_key_valid _ Hkey),
    (invalid_days_inside _ Hin).
  unfold_monad. rewrite (fetch_in_time _ _ _ w Hnet), Hok, Hjson. cbn [negb].
  destruct (truthy data) eqn:Et; [|reflexivity]. cbn [negb].
  destruct (get data "DailyForecasts") as [forecasts|e] eqn:Eget.
  - destruct forecasts as [| |b|n|s|l|props];
      try (cbn [isArray negb]; rewrite ?orb_true_r; reflexivity).
    exfalso. apply (Hlacks l). exact Eget.
  - destruct data; cbn in Et, Eget; discriminate.
Qed.

End Replies.

Lemma every_method_times_out_witness :
  getForecast Incident.sluggish Scenario.key (VNum (of_Z 5)) Scenario.start =
    (Err RequestTimeout,
     World (0 + 30000) ([] ++ [Request (DailyForecast (VNum (of_Z 5)) Scenario.key) true])) /\
  fst (getCurrentConditions
         (Incident.trickling (VArr [Typed.conditions (Scenario.observation None)]))
         Scenario.key Scenario.start) <> Err RequestTimeout.
Proof.
  split.
  - apply (every_method_times_out Incident.sluggish Scenario.start).
    + exists "224758". split; [reflexivity | discriminate].
    + exists (inject_Z 5). split; [reflexivity|]. split; discriminate.
    + unfold too_late. vm_compute. discriminate.
  - apply (every_method_times_out
             (Incident.trickling (VArr [Typed.conditions (Scenario.observation None)]))
             Scenario.start)
      with (r := Response 200 "OK" ""
                   (Some (VArr [Typed.conditions (Scenario.observation None)])) 31000).
    + exists "224758". split; [reflexivity | discriminate].
    + split; reflexivity.
Defined.

(** A body that takes 31 s is read to its end: the conditions come back
    31.05 s after the call. *)
Lemma getCurrentConditions_reads_slow_body :
  getCurrentConditions
    (Incident.trickling (VArr [Typed.conditions (Scenario.observation None)]))
    Scenario.key Scenario.start =
  (Ok (Typed.conditions (Scenario.observation None)),
   World 31050 [Request (CurrentConditions Scenario.key) true]).
Proof. vm_compute. reflexivity. Qed.

Lemma network_failure_is_rethrown_witness :
  fst (getCurrentConditions Incident.resetting Scenario.key Scenario.start) =
    Err (FetchError "FetchError" "socket hang up").
Proof.
  apply (network_failure_is_rethrown Incident.resetting "FetchError" "socket hang up"
           Scenario.start).
  - discriminate.
  - exists "224758". split; [reflexivity | discriminate].
  - split; reflexivity.
Defined.

Lemma unparsable_body_is_rethrown_witness :
  fst (getLocationKey (Incident.answering None) NAIROBI_LAT NAIROBI_LON Scenario.start) =
    Err JsonError.
Proof.
  apply (unparsable_body_is_rethrown (Incident.answering None)
           (Response 200 "OK" "" None 0) Scenario.start).
  - reflexivity.
  - reflexivity.
  - exists (-12864 # 10000). split; [reflexivity|]. split; discriminate.
  - exists (368172 # 10000). split; [reflexivity|]. split; discriminate.
  - split; reflexivity.
Defined.

Lemma getForecast_missing_forecasts_witness :
  fst (getForecast (Incident.answering (Some (VObj [("DailyForecasts", VNull)])))
         Scenario.key (VNum (of_Z 5)) Scenario.start) = Err MissingDailyForecasts /\
  kind MissingDailyForecasts = UpstreamProtocolError.
Proof.
  apply (getForecast_missing_forecasts
           (Incident.answering (Some (VObj [("DailyForecasts", VNull)])))
           Scenario.key (VNum (of_Z 5)) (VObj [("DailyForecasts", VNull)])
           (Response 200 "OK" "" (Some (VObj [("DailyForecasts", VNull)])) 0) Scenario.start).
  - exists "224758". split; [reflexivity | discriminate].
  - exists (inject_Z 5). split; [reflexivity|]. split; discriminate.
  - split; reflexivity.
  - reflexivity.
  - reflexivity.
  - intros l H. discriminate H.
Defined.

(** ** How many entries a forecast can have *)

(** An accepted day count cuts the list after at most 15 entries: it is
    [NaN], which keeps nothing, or a finite number in [1, 15], which is
    truncated to a whole number of entries. *)
Lemma slice_accepted_bound {A : Type} (l : list A) (days : value) :
  invalid_days days = false ->
  exists k : nat, slice l (number_of days) = firstn k l /\ (k <= 15)%nat.
Proof.
  destruct days as [| | |n| | |]; try discriminate.
  destruct n as [| | |q]; try discriminate; cbn [number_of]; intros Hacc.
  - exists 0%nat. split; [|lia]. unfold slice. cbn [ToIntegerOrInfinity Z.ltb Z.compare].
    rewrite Z.min_l by lia. reflexivity.
  - unfold invalid_days, gt, of_Z in Hacc. cbn [lt] in Hacc.
    apply orb_false_iff in Hacc. destruct Hacc as [H1 H15].
    apply Qlt_bool_false_iff in H1, H15. unfold Qle in H1, H15. cbn in H1, H15.
    unfold slice. cbn [ToIntegerOrInfinity].
    rewrite Z.quot_div_nonneg by lia.
    set (z := Qnum q / Z.pos (Qden q)).
    assert (Hz : 1 <= z <= 15).
    { unfold z. split.
      - apply Z.div_le_lower_bound; lia.
      - apply Z.div_le_upper_bound; lia. }
    destruct (Z.ltb_spec z 0); [lia|].
    exists (Z.to_nat (Z.min z (Z.of_nat (List.length l)))). split; [reflexivity | lia].
Qed.

(** X9. Whatever day count passed the check (a fraction and [NaN] do)
    and whatever the provider sent, a successful [getForecast] returns the
    first entries of the provider's [DailyForecasts] list, in its order, and
    never more than 15 of them. *)
Theorem getForecast_at_most_fifteen
    (net : provider) (locationKey days v : value) (w w' : world) :
  getForecast net locationKey days w = (Ok v, w') ->
  exists (r : response) (data : value) (l : list value) (k : nat),
    answer (net (DailyForecast (default_param days (VNum (of_Z 5))) locationKey)) =
      Responds r /\
    json r = Some data /\
    get data "DailyForecasts" = Ok (VArr l) /\
    v = VArr (firstn k l) /\
    (List.length (firstn k l) <= 15)%nat.
Proof.
  intros Hrun. apply getForecast_ok_inv in Hrun. cbv zeta in Hrun.
  destruct Hrun as (r & data & l & Hdays & Hans & Hjson & Hget & ->).
  destruct (slice_accepted_bound l _ Hdays) as [k [Hk Hle]].
  exists r, data, l, k. rewrite Hk, length_firstn. repeat split; try assumption. lia.
Qed.

Lemma getForecast_at_most_fifteen_witness :
  exists (r : response) (data : value) (l : list value) (k : nat),
    answer (Scenario.healthy Scenario.seven_days
              (DailyForecast (default_param (VNum (Fin (25 # 10))) (VNum (of_Z 5)))
                 Scenario.key)) = Responds r /\
    json r = Some data /\
    get data "DailyForecasts" = Ok (VArr l) /\
    VArr (map Typed.forecast (firstn 2 Scenario.seven_days)) = VArr (firstn k l) /\
    (List.length (firstn k l) <= 15)%nat.
Proof.
  apply (getForecast_at_most_fifteen (Scenario.healthy Scenario.seven_days) Scenario.key
           (VNum (Fin (25 # 10))) (VArr (map Typed.forecast (firstn 2 Scenario.seven_days)))
           Scenario.start
           (World 95 [Request (DailyForecast (VNum (Fin (25 # 10))) Scenario.key) true])).
  vm_compute. reflexivity.
Defined.

(** ** Requests and elapsed time *)

(** Close a leaf of a case analysis on a method: the state is the one
    expected, or the error is not the one asked about. *)
Ltac settle_leaf :=
  cbn [fst snd now calls];
  try reflexivity;
  try (let H := fresh in
       intros H; try discriminate H; injection H as <-;
       cbn [kind]; discriminate).

Ltac explore :=
  repeat (settle_leaf;
          repeat match goal with
                 | H : get _ _ = Err _ |- _ => apply get_error in H; subst
                 end;
          try case_step).

Section Logs.

Variable net : provider.

(** Once its checks have passed, a method issues its one request,
    however the request ends. *)
Lemma getLocationKey_checked_calls (lat lon : value) (w : world) :
  invalid_coordinate lat 90 = false -> invalid_coordinate lon 180 = false ->
  calls (snd (getLocationKey net lat lon w)) =
    (calls w ++ [Request (GeopositionSearch lat lon) true])%list.
Proof.
  intros Hlat Hlon. unfold getLocationKey. rewrite Hlat, Hlon.
  unfold_monad. unfold fetch. explore.
Qed.

Lemma getCurrentConditions_checked_calls (locationKey : value) (w : world) :
  invalid_key locationKey = false ->
  calls (snd (getCurrentConditions net locationKey w)) =
    (calls w ++ [Request (CurrentConditions locationKey) true])%list.
Proof.
  intros Hkey. unfold getCurrentConditions. rewrite Hkey.
  unfold_monad. unfold fetch. explore.
Qed.

Lemma getForecast_checked_calls (locationKey days : value) (w : world) :
  invalid_key locationKey = false ->
  invalid_days (default_param days (VNum (of_Z 5))) = false ->
  calls (snd (getForecast net locationKey days w)) =
    (calls w ++ [Request (DailyForecast (default_param days (VNum (of_Z 5))) locationKey)
                   true])%list.
Proof.
  intros Hkey Hdays. unfold getForecast. cbv zeta. rewrite Hkey, Hdays.
  unfold_monad. unfold fetch. explore.
Qed.

(** Once its checks have passed, a method never fails with an
    [InvalidArgument] error. *)
Lemma getLocationKey_checked_errors (lat lon : value) (w : world) (e : error) :
  invalid_coordinate lat 90 = false -> invalid_coordinate lon 180 = false ->
  fst (getLocationKey net lat lon w) = Err e -> kind e <> InvalidArgument.
Proof.
  intros Hlat Hlon. unfold getLocationKey. rewrite Hlat, Hlon.
  unfold_monad. unfold fetch. explore.
Qed.

Lemma getCurrentConditions_checked_errors (locationKey : value) (w : world) (e : error) :
  invalid_key locationKey = false ->
  fst (getCurrentConditions net locationKey w) = Err e -> kind e <> InvalidArgument.
Proof.
  intros Hkey. unfold getCurrentConditions. rewrite Hkey.
  unfold_monad. unfold fetch. explore.
Qed.

Lemma getForecast_checked_errors (locationKey days : value) (w : world) (e : error) :
  invalid_key locationKey = false ->
  invalid_days (default_param days (VNum (of_Z 5))) = false ->
  fst (getForecast net locationKey days w) = Err e -> kind e <> InvalidArgument.
Proof.
  intros Hkey Hdays. unfold getForecast. cbv zeta. rewrite Hkey, Hdays.
  unfold_monad. unfold fetch. explore.
Qed.

End Logs.

Ltac settle_success :=
  repeat (cbn [fst snd];
          try (let H := fresh in
               intros H; (discriminate H || (injection H as _ <-; reflexivity)));
          try case_step).

Section Composition.

Variable net : provider.

Lemma default_param_twice (v : value) :
  default_param (default_param v (VNum (of_Z 5))) (VNum (of_Z 5)) =
  default_param v (VNum (of_Z 5)).
Proof. destruct v; reflexivity. Qed.

(** A method that succeeds has issued its one request, and the clock has
    advanced by the time of the response and of reading its body. *)
Lemma getLocationKey_ok_world (lat lon key : value) (w w' : world) :
  getLocationKey net lat lon w = (Ok key, w') ->
  w' = World (now w + latency (net (GeopositionSearch lat lon))
              + match answer (net (GeopositionSearch lat lon)) with
                | Responds r => body_ms r
                | Fails _ _ => 0
                end)%N
             (calls w ++ [Request (GeopositionSearch lat lon) true]).
Proof. unfold getLocationKey. unfold_monad. unfold fetch. settle_success. Qed.

Lemma getCurrentConditions_ok_world (locationKey v : value) (w w' : world) :
  getCurrentConditions net locationKey w = (Ok v, w') ->
  w' = World (now w + latency (net (CurrentConditions locationKey))
              + match answer (net (CurrentConditions locationKey)) with
                | Responds r => body_ms r
                | Fails _ _ => 0
                end)%N
             (calls w ++ [Request (CurrentConditions locationKey) true]).
Proof. unfold getCurrentConditions. unfold_monad. unfold fetch. settle_success. Qed.

Lemma getForecast_ok_world (locationKey days v : value) (w w' : world) :
  getForecast net locationKey days w = (Ok v, w') ->
  w' = World (now w + latency (net (DailyForecast (default_param days (VNum (of_Z 5)))
                                                    locationKey))
              + match answer (net (DailyForecast (default_param days (VNum (of_Z 5)))
                                                 locationKey)) with
                | Responds r => body_ms r
                | Fails _ _ => 0
                end)%N
             (calls w ++ [Request (DailyForecast (default_param days (VNum (of_Z 5)))
                                                 locationKey) true]).
Proof. unfold getForecast. cbv zeta. unfold_monad. unfold fetch. settle_success. Qed.

(** X10. When one of the three methods fails with an [InvalidArgument]
    error, it has issued no request and no time has passed: the state is
    the one it was called in. *)
Theorem argument_errors_precede_requests (e : error) (w : world) :
  kind e = InvalidArgument ->
  (forall lat lon,
     fst (getLocationKey net lat lon w) = Err e ->
     snd (getLocationKey net lat lon w) = w) /\
  (forall locationKey,
     fst (getCurrentConditions net locationKey w) = Err e ->
     snd (getCurrentConditions net locationKey w) = w) /\
  (forall locationKey days,
     fst (getForecast net locationKey days w) = Err e ->
     snd (getForecast net locationKey days w) = w).
Proof.
  intros Hkind. repeat split.
  - intros lat lon Hrun.
    destruct (invalid_coordinate lat 90) eqn:Elat;
      [unfold getLocationKey; rewrite Elat; unfold_monad;
       destruct (converts lat); reflexivity|].
    destruct (invalid_coordinate lon 180) eqn:Elon;
      [unfold getLocationKey; rewrite Elat, Elon; unfold_monad;
       destruct (converts lon); reflexivity|].
    exfalso. apply (getLocationKey_checked_errors net lat lon w e Elat Elon Hrun Hkind).
  - intros locationKey Hrun.
    destruct (invalid_key locationKey) eqn:Ekey;
      [unfold getCurrentConditions; rewrite Ekey; reflexivity|].
    exfalso. apply (getCurrentConditions_checked_errors net locationKey w e Ekey Hrun Hkind).
  - intros locationKey days Hrun.
    destruct (invalid_key locationKey) eqn:Ekey;
      [unfold getForecast; rewrite Ekey; reflexivity|].
    destruct (invalid_days (default_param days (VNum (of_Z 5)))) eqn:Edays;
      [unfold getForecast; cbv zeta; rewrite Ekey, Edays; unfold_monad;
       destruct (converts _); reflexivity|].
    exfalso. apply (getForecast_checked_errors net locationKey days w e Ekey Edays Hrun Hkind).
Qed.

(** X11. In [getWeatherForecast] an [InvalidArgument] error can come after
    a request: when the resolved key is not a non-empty string (a number,
    say), both second-stage calls reject it at once and the call fails with
    the invalid-key error, the geoposition request having been issued and
    nothing after it. *)
Theorem getWeatherForecast_rejects_resolved_key
    (lat lon days locationKey : value) (w wk : world) :
  getLocationKey net lat lon w = (Ok locationKey, wk) ->
  ~ valid_key locationKey ->
  getWeatherForecast net lat lon days w = (Err InvalidLocationKey, wk) /\
  calls wk = (calls w ++ [Request (GeopositionSearch lat lon) true])%list.
Proof.
  intros Hk Hbad.
  assert (Hinv : invalid_key locationKey = true).
  { destruct (invalid_key locationKey) eqn:E; [reflexivity|].
    exfalso. apply Hbad, invalid_key_false_iff, E. }
  split.
  - unfold getWeatherForecast. cbv zeta. unfold bind at 1. rewrite Hk.
    unfold bind at 1, promise_all, getCurrentConditions, getForecast. cbv zeta.
    rewrite Hinv. unfold throw. cbn [now calls].
    rewrite N.leb_refl. destruct wk; reflexivity.
  - rewrite (getLocationKey_ok_world _ _ _ _ _ Hk). reflexivity.
Qed.

(** X12. A successful [getWeatherForecast] has issued exactly four
    requests, in this order: geoposition search, current conditions, daily
    forecast (these three with the abort signal) and location details
    (without).  The two in the middle run side by side: the time taken is
    the time of the first reply, plus the larger of the two, plus that of
    the last, the time of a reply being that of its response and of reading
    its body. *)
Theorem getWeatherForecast_success_log
    (lat lon days bundle : value) (w w' : world) :
  getWeatherForecast net lat lon days w = (Ok bundle, w') ->
  let days' := default_param days (VNum (of_Z 5)) in
  exists locationKey : value,
    calls w' = (calls w ++ forecast_plan lat lon days' locationKey)%list /\
    now w' =
      (now w + reply_time net (GeopositionSearch lat lon)
       + N.max (reply_time net (CurrentConditions locationKey))
               (reply_time net (DailyForecast days' locationKey))
       + reply_time net (LocationDetails locationKey))%N.
Proof.
  intros Hrun days'. pose proof (getWeatherForecast_ok_inv _ _ _ _ _ _ _ Hrun) as Hinv.
  cbv zeta in Hinv. fold days' in Hinv.
  destruct Hinv as (locationKey & current & forecast & location & wk & wa & wb & r &
                    Hk & Ha & Hb & Hans & Hok & Hjson & ->).
  assert (Hall : promise_all (getCurrentConditions net locationKey)
                   (getForecast net locationKey days') wk =
                 (Ok (current, forecast), World (N.max (now wa) (now wb)) (calls wb))).
  { unfold promise_all. rewrite Ha, Hb. reflexivity. }
  rewrite (getWeatherForecast_details_unbounded net lat lon days locationKey current forecast
             location w wk _ r Hk Hall Hans Hok Hjson) in Hrun.
  injection Hrun as <-.
  apply getLocationKey_ok_world in Hk. apply getCurrentConditions_ok_world in Ha.
  apply getForecast_ok_world in Hb. unfold days' in Hb.
  rewrite default_param_twice in Hb. fold days' in Hb. subst wk wa wb.
  exists locationKey. cbn [now calls]. split.
  - unfold forecast_plan. rewrite <- !app_assoc. reflexivity.
  - unfold reply_time. rewrite Hans. lia.
Qed.

End Composition.

Lemma argument_errors_precede_requests_witness :
  snd (getForecast (Scenario.healthy Scenario.five_days) Scenario.key (VNum (of_Z 0))
         Scenario.start) = Scenario.start.
Proof.
  apply (argument_errors_precede_requests (Scenario.healthy Scenario.five_days)
           (InvalidDays (VNum (of_Z 0))) Scenario.start).
  - reflexivity.
  - reflexivity.
Defined.

Lemma getWeatherForecast_rejects_resolved_key_witness :
  getWeatherForecast (Incident.resolving_to Incident.numeric_key_body)
      NAIROBI_LAT NAIROBI_LON (VNum (of_Z 5)) Scenario.start =
    (Err InvalidLocationKey,
     World 120 [Request (GeopositionSearch NAIROBI_LAT NAIROBI_LON) true]) /\
  calls (World 120 [Request (GeopositionSearch NAIROBI_LAT NAIROBI_LON) true]) =
    ([] ++ [Request (GeopositionSearch NAIROBI_LAT NAIROBI_LON) true])%list.
Proof.
  apply (getWeatherForecast_rejects_resolved_key
           (Incident.resolving_to Incident.numeric_key_body)
           NAIROBI_LAT NAIROBI_LON (VNum (of_Z 5)) (VNum (of_Z 224758)) Scenario.start
           (World 120 [Request (GeopositionSearch NAIROBI_LAT NAIROBI_LON) true])).
  - vm_compute. reflexivity.
  - intros [s [H _]]. discriminate H.
Defined.

Lemma getWeatherForecast_success_log_witness :
  exists locationKey : value,
    [Request (GeopositionSearch NAIROBI_LAT NAIROBI_LON) true;
     Request (CurrentConditions Scenario.key) true;
     Request (DailyForecast (VNum (of_Z 5)) Scenario.key) true;
     Request (LocationDetails Scenario.key) false] =
      ([] ++ forecast_plan NAIROBI_LAT NAIROBI_LON (VNum (of_Z 5)) locationKey)%list /\
    275%N =
      (0 + reply_time (Scenario.healthy Scenario.five_days)
             (GeopositionSearch NAIROBI_LAT NAIROBI_LON)
       + N.max (reply_time (Scenario.healthy Scenario.five_days)
                  (CurrentConditions locationKey))
               (reply_time (Scenario.healthy Scenario.five_days)
                  (DailyForecast (VNum (of_Z 5)) locationKey))
       + reply_time (Scenario.healthy Scenario.five_days) (LocationDetails locationKey))%N.
Proof.
  apply (getWeatherForecast_success_log (Scenario.healthy Scenario.five_days)
           NAIROBI_LAT NAIROBI_LON (VNum (of_Z 5))
           (Typed.bundle Scenario.nairobi (Scenario.observation None) Scenario.five_days)
           Scenario.start
           (World 275 [Request (GeopositionSearch NAIROBI_LAT NAIROBI_LON) true;
                       Request (CurrentConditions Scenario.key) true;
                       Request (DailyForecast (VNum (of_Z 5)) Scenario.key) true;
                       Request (LocationDetails Scenario.key) false])).
  vm_compute. reflexivity.
Defined.

Section Plan.

Variable net : provider.

Lemma getLocationKey_calls (lat lon : value) (w : world) :
  calls (snd (getLocationKey net lat lon w)) =
    (calls w ++ if invalid_coordinate lat 90 || invalid_coordinate lon 180 then []
                else [Request (GeopositionSearch lat lon) true])%list.
Proof.
  destruct (invalid_coordinate lat 90) eqn:Elat;
    [unfold getLocationKey; rewrite Elat; unfold_monad; destruct (converts lat);
     cbn; rewrite app_nil_r; reflexivity|].
  destruct (invalid_coordinate lon 180) eqn:Elon;
    [unfold getLocationKey; rewrite Elat, Elon; unfold_monad; destruct (converts lon);
     cbn; rewrite app_nil_r; reflexivity|].
  apply (getLocationKey_checked_calls net lat lon w Elat Elon).
Qed.

Lemma getCurrentConditions_calls (locationKey : value) (w : world) :
  calls (snd (getCurrentConditions net locationKey w)) =
    (calls w ++ if invalid_key locationKey then []
                else [Request (CurrentConditions locationKey) true])%list.
Proof.
  destruct (invalid_key locationKey) eqn:Ekey;
    [unfold getCurrentConditions; rewrite Ekey; cbn; rewrite app_nil_r; reflexivity|].
  apply (getCurrentConditions_checked_calls net locationKey w Ekey).
Qed.

Lemma getForecast_calls (locationKey days : value) (w : world) :
  let days' := default_param days (VNum (of_Z 5)) in
  calls (snd (getForecast net locationKey days w)) =
    (calls w ++ if invalid_key locationKey || invalid_days days' then []
                else [Request (DailyForecast days' locationKey) true])%list.
Proof.
  intros days'.
  destruct (invalid_key locationKey) eqn:Ekey;
    [unfold getForecast; rewrite Ekey; cbn; rewrite app_nil_r; reflexivity|].
  destruct (invalid_days days') eqn:Edays;
    [unfold getForecast; cbv zeta; fold days'; rewrite Ekey, Edays; unfold_monad;
     destruct (converts days'); cbn; rewrite app_nil_r; reflexivity|].
  apply (getForecast_checked_calls net locationKey days w Ekey Edays).
Qed.

(** The requests of [Promise.all] are those of its first call followed by
    those of its second, whatever either returns. *)
Lemma promise_all_calls {A B : Type} (a : M A) (b : M B) (w : world) :
  calls (snd (promise_all a b w)) =
    calls (snd (b (World (now w) (calls (snd (a w)))))).
Proof.
  unfold promise_all. destruct (a w) as [ra wa]. cbn [snd].
  destruct (b (World (now w) (calls wa))) as [rb wb]. cbn [snd].
  destruct ra, rb; try reflexivity.
  destruct (now wa <=? now wb)%N; reflexivity.
Qed.

(** The second stage of [getWeatherForecast], from a resolved key on. *)
Lemma second_stage_calls (locationKey days : value) (wk : world) :
  let days' := default_param days (VNum (of_Z 5)) in
  calls (snd (promise_all (getCurrentConditions net locationKey)
                          (getForecast net locationKey days') wk)) =
    (calls wk
     ++ (if invalid_key locationKey then []
         else [Request (CurrentConditions locationKey) true])
     ++ (if invalid_key locationKey || invalid_days days' then []
         else [Request (DailyForecast days' locationKey) true]))%list.
Proof.
  intros days'. rewrite promise_all_calls.
  pose proof (getForecast_calls locationKey days'
                (World (now wk) (calls (snd (getCurrentConditions net locationKey wk)))))
    as Hf.
  cbv zeta in Hf. unfold days' in Hf at 2 3. rewrite default_param_twice in Hf.
  fold days' in Hf. rewrite Hf. cbn [calls].
  rewrite getCurrentConditions_calls, <- app_assoc. reflexivity.
Qed.

(** X13. Whatever the arguments and whatever the provider does, the
    requests issued by one [getWeatherForecast] call are a beginning of the
    same sequence of four: geoposition search, current conditions, daily
    forecast, location details.  Never more than four, never in another
    order, and the details request only after the three others. *)
Theorem getWeatherForecast_requests_follow_plan
    (lat lon days : value) (w : world) :
  exists (locationKey : value) (k : nat),
    calls (snd (getWeatherForecast net lat lon days w)) =
      (calls w ++ firstn k (forecast_plan lat lon (default_param days (VNum (of_Z 5)))
                              locationKey))%list.
Proof.
  unfold getWeatherForecast. cbv zeta. set (days' := default_param days (VNum (of_Z 5))).
  unfold bind at 1.
  destruct (getLocationKey net lat lon w) as [[locationKey|e] wk] eqn:Hk.
  - pose proof (getLocationKey_ok_world net _ _ _ _ _ Hk) as Hwk.
    assert (Hcalls : calls wk = (calls w ++ [Request (GeopositionSearch lat lon) true])%list)
      by (rewrite Hwk; reflexivity).
    pose proof (second_stage_calls locationKey days wk) as Hstage.
    cbv zeta in Hstage. fold days' in Hstage.
    unfold bind at 1.
    destruct (promise_all (getCurrentConditions net locationKey)
                (getForecast net locationKey days') wk) as [[[current forecast]|e] wp] eqn:Hall.
    + cbn [snd] in Hstage.
      apply promise_all_ok_inv in Hall. destruct Hall as (wa & wb & Ha & Hb & _).
      assert (Ekey : invalid_key locationKey = false).
      { destruct (invalid_key locationKey) eqn:E; [|reflexivity].
        unfold getCurrentConditions in Ha. rewrite E in Ha. discriminate Ha. }
      assert (Edays : invalid_days days' = false).
      { destruct (invalid_days days') eqn:E; [|reflexivity].
        unfold getForecast in Hb. cbv zeta in Hb. unfold days' in Hb.
        rewrite default_param_twice in Hb. fold days' in Hb.
        rewrite Ekey, E in Hb. unfold interpolate, bind, throw, ret in Hb.
        destruct (converts days'); discriminate Hb. }
      rewrite Ekey, Edays in Hstage. cbn [orb] in Hstage.
      exists locationKey, 4%nat.
      assert (Hend : forall k : response -> M value,
                 (forall r w0, calls (snd (k r w0)) = calls w0) ->
                 calls (snd (bind (fetch net (LocationDetails locationKey) None) k wp)) =
                   (calls wp ++ [Request (LocationDetails locationKey) false])%list).
      { intros k Hpure. unfold bind, fetch.
        destruct (answer (net (LocationDetails locationKey))) as [r|name message];
          [|reflexivity].
        rewrite Hpure. reflexivity. }
      rewrite Hend.
      * rewrite Hstage, Hcalls. unfold forecast_plan. cbn [firstn].
        rewrite <- !app_assoc. reflexivity.
      * intros r w0. unfold_monad. explore.
    + cbn [snd] in Hstage |- *. rewrite Hstage, Hcalls.
      destruct (invalid_key locationKey); [|destruct (invalid_days days')]; cbn [orb].
      * exists locationKey, 1%nat. rewrite <- !app_assoc. reflexivity.
      * exists locationKey, 2%nat. rewrite <- !app_assoc. reflexivity.
      * exists locationKey, 3%nat. rewrite <- !app_assoc. reflexivity.
  - cbn [snd]. pose proof (getLocationKey_calls lat lon w) as Hc.
    rewrite Hk in Hc. cbn [snd] in Hc. rewrite Hc.
    destruct (invalid_coordinate lat 90 || invalid_coordinate lon 180).
    + exists VUndefined, 0%nat. reflexivity.
    + exists VUndefined, 1%nat. reflexivity.
Qed.

(** X14. Once the key has been resolved to a non-empty string and the day
    count is within [1, 15], both second-stage requests are issued, the
    conditions request first, whatever either of them returns: a failure of
    one does not keep the other from going out. *)
Theorem getWeatherForecast_issues_both_second_stage_requests
    (lat lon days locationKey : value) (w wk : world) :
  getLocationKey net lat lon w = (Ok locationKey, wk) ->
  valid_key locationKey ->
  finite_in 1 15 days ->
  exists rest : list request,
    calls (snd (getWeatherForecast net lat lon days w)) =
      (calls w ++ [Request (GeopositionSearch lat lon) true;
                   Request (CurrentConditions locationKey) true;
                   Request (DailyForecast days locationKey) true] ++ rest)%list.
Proof.
  intros Hk Hkey Hin.
  pose proof (second_stage_calls locationKey days wk) as Hstage. cbv zeta in Hstage.
  rewrite (finite_in_not_undefined _ _ _ Hin), (invalid_key_valid _ Hkey),
    (invalid_days_inside _ Hin) in Hstage. cbn [orb] in Hstage.
  pose proof (getLocationKey_ok_world net _ _ _ _ _ Hk) as Hwk.
  assert (Hcalls : calls wk = (calls w ++ [Request (GeopositionSearch lat lon) true])%list)
    by (rewrite Hwk; reflexivity).
  unfold getWeatherForecast. cbv zeta. rewrite (finite_in_not_undefined _ _ _ Hin).
  unfold bind at 1. rewrite Hk. unfold bind at 1.
  destruct (promise_all (getCurrentConditions net locationKey)
              (getForecast net locationKey days) wk) as [[[current forecast]|e] wp].
  - cbn [snd] in Hstage. exists [Request (LocationDetails locationKey) false].
    unfold_monad. unfold fetch.
    destruct (answer (net (LocationDetails locationKey))) as [r|name message].
    + cbn [calls snd fst].
      match goal with
      | |- calls (snd ?X) = _ =>
          assert (Hx : calls (snd X) =
                       (calls wp ++ [Request (LocationDetails locationKey) false])%list)
            by explore
      end.
      rewrite Hx, Hstage, Hcalls. rewrite <- !app_assoc. reflexivity.
    + cbn [calls snd]. rewrite Hstage, Hcalls. rewrite <- !app_assoc. reflexivity.
  - cbn [snd] in Hstage |- *. exists []. rewrite Hstage, Hcalls.
    rewrite <- !app_assoc. reflexivity.
Qed.

End Plan.

Lemma getWeatherForecast_issues_both_second_stage_requests_witness :
  exists rest : list request,
    calls (snd (getWeatherForecast
                  (Scenario.serving (Outcome 20 (Responds Scenario.unauthorized))
                     (Scenario.forecast_ok Scenario.five_days) (Scenario.details_ok 60))
                  NAIROBI_LAT NAIROBI_LON (VNum (of_Z 5)) Scenario.start)) =
      ([] ++ [Request (GeopositionSearch NAIROBI_LAT NAIROBI_LON) true;
              Request (CurrentConditions Scenario.key) true;
              Request (DailyForecast (VNum (of_Z 5)) Scenario.key) true] ++ rest)%list.
Proof.
  apply (getWeatherForecast_issues_both_second_stage_requests
           (Scenario.serving (Outcome 20 (Responds Scenario.unauthorized))
              (Scenario.forecast_ok Scenario.five_days) (Scenario.details_ok 60))
           NAIROBI_LAT NAIROBI_LON (VNum (of_Z 5)) Scenario.key Scenario.start
           (World 120 [Request (GeopositionSearch NAIROBI_LAT NAIROBI_LON) true])).
  - vm_compute. reflexivity.
  - exists "224758". split; [reflexivity | discriminate].
  - exists (inject_Z 5). split; [reflexivity|]. split; discriminate.
Defined.

(** * Further properties of the response shaping *)

(** ** The date of a shaped entry *)

(** The first piece of a split at [T]: it has no [T], the string starts
    with it, and what follows is nothing or starts with the first [T]. *)
Lemma split_first_piece (s : string) :
  exists (p : string) (pieces : list string) (rest : string),
    split "T" s = p :: pieces /\
    free_of_T p = true /\
    s = (p ++ rest)%string /\
    (rest = "" \/ exists t, rest = String "T" t) /\
    (free_of_T s = true -> p = s).
Proof.
  induction s as [|c s IH].
  - exists "", [], "". repeat split; auto.
  - destruct IH as (p & pieces & rest & Hsplit & Hfree & Hs & Hrest & Hwhole).
    cbn [split free_of_T]. destruct (Ascii.eqb c "T") eqn:Ec.
    + apply Ascii.eqb_eq in Ec. subst c.
      exists "", (split "T" s), (String "T" s). repeat split.
      * right. exists s. reflexivity.
      * discriminate.
    + rewrite Hsplit. exists (String c p), pieces, rest. cbn [free_of_T negb andb append].
      rewrite Ec, Hfree, <- Hs. repeat split; auto.
      intros Hfs. rewrite (Hwhole Hfs). reflexivity.
Qed.

(** X15. Whatever string a forecast entry of the declared type has as
    [Date], the entry is shaped without failure, and its [date] is that
    string up to its first [T]: a piece without [T], followed in [Date] by
    nothing or by the first [T]; a [Date] without any [T] is kept whole. *)
Theorem shape_day_date_is_up_to_first_T (f : Typed.AccuWeatherForecast) :
  exists (v : value) (p rest : string),
    shape_day (Typed.forecast f) = Ok v /\
    get v "date" = Ok (VStr p) /\
    free_of_T p = true /\
    Typed.Date f = (p ++ rest)%string /\
    (rest = "" \/ exists t, rest = String "T" t) /\
    (free_of_T (Typed.Date f) = true -> p = Typed.Date f).
Proof.
  destruct f as [date tmin tmax dicon dphrase dprob dwind nicon nphrase nprob].
  destruct (split_first_piece date) as (p & pieces & rest & Hsplit & Hfree & Hs & Hrest & Hw).
  unfold shape_day, Typed.forecast.
  cbn [get lookup String.eqb Ascii.eqb Bool.eqb rbind split_T_first Typed.Date].
  rewrite Hsplit. cbn.
  eexists. exists p, rest. repeat split; assumption.
Qed.

(** ** Shaping never fails for data of the declared types *)

Lemma shape_day_total (f : Typed.AccuWeatherForecast) :
  exists (v : value) (p : string),
    shape_day (Typed.forecast f) = Ok v /\ get v "date" = Ok (VStr p).
Proof.
  destruct f as [date tmin tmax dicon dphrase dprob dwind nicon nphrase nprob].
  destruct (split_first_piece date) as (p & pieces & rest & Hsplit & _).
  unfold shape_day, Typed.forecast.
  cbn [get lookup String.eqb Ascii.eqb Bool.eqb rbind split_T_first Typed.Date].
  rewrite Hsplit. cbn. eexists. exists p. split; reflexivity.
Qed.

Lemma map_result_shape_day_total (fs : list Typed.AccuWeatherForecast) :
  exists shaped : list value,
    map_result shape_day (map Typed.forecast fs) = Ok shaped /\
    List.length shaped = List.length fs /\
    Forall (fun v => exists p, get v "date" = Ok (VStr p)) shaped.
Proof.
  induction fs as [|f fs IH].
  - exists []. repeat split. constructor.
  - destruct (shape_day_total f) as (v & p & Hv & Hp).
    destruct IH as (shaped & Hshaped & Hlen & Hall).
    exists (v :: shaped). cbn [map map_result]. rewrite Hv. cbn [rbind].
    rewrite Hshaped. cbn [rbind List.length]. repeat split.
    + congruence.
    + constructor; eauto.
Qed.

Lemma Forall_last {A : Type} (P : A -> Prop) (l : list A) (d : A) :
  Forall P l -> l <> [] -> P (last l d).
Proof.
  induction 1 as [|x l Hx Hl IH]; [contradiction|]. intros _.
  destruct l as [|y l]; [exact Hx|]. apply IH. discriminate.
Qed.

(** X16. For every bundle of the declared types with at least one
    forecast entry, whatever its [Date] strings, [shapeForecastResponse]
    produces a document: its forecast has as many entries as the bundle's,
    its [period.days] is the day count it was given (the number asked for,
    not the number of entries), and its [data_source] is the fixed label. *)
Theorem shapeForecastResponse_total
    (lat lon days : value) (loc : Typed.AccuWeatherLocation)
    (cur : Typed.AccuWeatherCurrentConditions)
    (fs : list Typed.AccuWeatherForecast) :
  fs <> [] ->
  exists (doc : value) (shaped : list value),
    shapeForecastResponse lat lon days (Typed.bundle loc cur fs) = Ok doc /\
    get doc "forecast" = Ok (VArr shaped) /\
    List.length shaped = List.length fs /\
    path doc ["period"; "days"] = Ok days /\
    get doc "data_source" = Ok (VStr "AccuWeather API").
Proof.
  intros Hne.
  destruct (map_result_shape_day_total fs) as (shaped & Hshaped & Hlen & Hall).
  assert (Hshaped_ne : shaped <> []).
  { intros ->. destruct fs; [contradiction | discriminate Hlen]. }
  assert (Hfirst : exists p, get (hd VUndefined shaped) "date" = Ok (VStr p)).
  { destruct Hall; [contradiction | assumption]. }
  pose proof (Forall_last _ shaped VUndefined Hall Hshaped_ne) as Hlast.
  destruct Hfirst as [p1 Hfirst]. destruct Hlast as [p2 Hlast].
  destruct loc as [k lname cid cname aid aname].
  destruct cur as [observed metric imperial wtext icon humidity speed degrees localized
                   ptype has].
  unfold shapeForecastResponse, Typed.bundle.
  cbn [get lookup String.eqb Ascii.eqb Bool.eqb rbind map_forecast].
  rewrite Hshaped. cbn [rbind]. cbn -[index last hd].
  rewrite index_first, (index_last shaped Hshaped_ne), Hfirst, Hlast. cbn [rbind].
  eexists. exists shaped. split; [reflexivity|].
  repeat split. exact Hlen.
Qed.

Lemma shapeForecastResponse_total_witness :
  exists (doc : value) (shaped : list value),
    shapeForecastResponse NAIROBI_LAT NAIROBI_LON (VNum (of_Z 5))
      (Typed.bundle Scenario.nairobi (Scenario.observation None) Scenario.three_days) =
      Ok doc /\
    get doc "forecast" = Ok (VArr shaped) /\
    List.length shaped = List.length Scenario.three_days /\
    path doc ["period"; "days"] = Ok (VNum (of_Z 5)) /\
    get doc "data_source" = Ok (VStr "AccuWeather API").
Proof.
  apply (shapeForecastResponse_total NAIROBI_LAT NAIROBI_LON (VNum (of_Z 5))
           Scenario.nairobi (Scenario.observation None) Scenario.three_days).
  discriminate.
Defined.

(** ** The only failures of shaping *)

Create HintDb type_errors.

Lemma only_type_errors_Ok {A : Type} (a : A) : only_type_errors (Ok a).
Proof. intros e H. discriminate H. Qed.

Lemma only_type_errors_get (v : value) (name : string) : only_type_errors (get v name).
Proof. intros e H. exists name. apply (get_error v name e H). Qed.

Lemma only_type_errors_get_opt (v : value) (name : string) :
  only_type_errors (get_opt v name).
Proof.
  destruct v; cbn [get_opt]; try apply only_type_errors_get; apply only_type_errors_Ok.
Qed.

Lemma only_type_errors_rbind {A B : Type} (r : result A) (f : A -> result B) :
  only_type_errors r ->
  (forall a, only_type_errors (f a)) ->
  only_type_errors (rbind r f).
Proof.
  intros Hr Hf. destruct r as [a|e0]; cbn [rbind].
  - apply Hf.
  - intros e H. injection H as <-. apply Hr. reflexivity.
Qed.

Lemma only_type_errors_path (names : list string) (v : value) :
  only_type_errors (path v names).
Proof.
  revert v. induction names as [|name names IH]; intros v; cbn [path].
  - apply only_type_errors_Ok.
  - apply only_type_errors_rbind; [apply only_type_errors_get | exact IH].
Qed.

Lemma only_type_errors_split (v : value) : only_type_errors (split_T_first v).
Proof.
  destruct v; cbn [split_T_first]; try (intros e H; injection H as <-; eauto).
  destruct (split "T" s); apply only_type_errors_Ok.
Qed.

#[local] Hint Resolve only_type_errors_Ok only_type_errors_get only_type_errors_get_opt
  only_type_errors_path only_type_errors_split : type_errors.

Ltac type_errors_chain :=
  repeat (apply only_type_errors_rbind; [auto with type_errors | intros ?]);
  auto with type_errors.

Lemma only_type_errors_shape_day (day : value) : only_type_errors (shape_day day).
Proof. unfold shape_day. type_errors_chain. Qed.

Lemma only_type_errors_map_result (l : list value) :
  only_type_errors (map_result shape_day l).
Proof.
  induction l as [|x l IH]; cbn [map_result]; [apply only_type_errors_Ok|].
  apply only_type_errors_rbind; [apply only_type_errors_shape_day | intros y].
  apply only_type_errors_rbind; [exact IH | intros ys; apply only_type_errors_Ok].
Qed.

Lemma only_type_errors_map_forecast (forecast : value) :
  only_type_errors (map_forecast forecast).
Proof.
  destruct forecast; cbn [map_forecast];
    try (intros e H; injection H as <-; eauto).
  apply only_type_errors_map_result.
Qed.

#[local] Hint Resolve only_type_errors_map_forecast : type_errors.

Lemma only_type_errors_shapeForecastResponse (lat lon days data : value) :
  only_type_errors (shapeForecastResponse lat lon days data).
Proof. unfold shapeForecastResponse. type_errors_chain. Qed.

Lemma only_type_errors_shapeCurrentConditionsResponse (lat lon current : value) :
  only_type_errors (shapeCurrentConditionsResponse lat lon current).
Proof. unfold shapeCurrentConditionsResponse. type_errors_chain. Qed.

(** X17. Whatever values they are given, of the declared types or not, the
    two shaping functions either produce a document or fail with a
    [TypeError] (a property read on [undefined] or [null], [split] on a
    [Date] that is not a string, [map] on a forecast that is not an array):
    they have no other way to fail. *)
Theorem shaping_fails_only_with_type_errors (lat lon days data : value) :
  only_type_errors (shapeForecastResponse lat lon days data) /\
  only_type_errors (shapeCurrentConditionsResponse lat lon data).
Proof.
  split.
  - apply only_type_errors_shapeForecastResponse.
  - apply only_type_errors_shapeCurrentConditionsResponse.
Qed.

(** ** Optional and required parts of the location *)

(** X18. In the location of a bundle, [AdministrativeArea] is optional and
    [Country] is not: with a country and no administrative area (absent or
    [null]) the document is produced and its [region] is [undefined]; with
    no country shaping throws. *)
Theorem shapeForecastResponse_region_is_optional
    (lat lon days loc name : value) (cur : Typed.AccuWeatherCurrentConditions)
    (fs : list Typed.AccuWeatherForecast) :
  fs <> [] ->
  get loc "LocalizedName" = Ok name ->
  let data := VObj [("location", loc);
                    ("current", Typed.conditions cur);
                    ("forecast", VArr (map Typed.forecast fs))] in
  (forall country country_name area,
     get loc "Country" = Ok country ->
     get country "LocalizedName" = Ok country_name ->
     get loc "AdministrativeArea" = Ok area ->
     is_nullish area ->
     exists doc,
       shapeForecastResponse lat lon days data = Ok doc /\
       path doc ["location"; "region"] = Ok VUndefined /\
       path doc ["location"; "country"] = Ok country_name) /\
  (forall country,
     get loc "Country" = Ok country ->
     is_nullish country ->
     shapeForecastResponse lat lon days data = Err (TypeError "LocalizedName")).
Proof.
  intros Hne Hname data.
  destruct (map_result_shape_day_total fs) as (shaped & Hshaped & Hlen & Hall).
  assert (Hshaped_ne : shaped <> []).
  { intros ->. destruct fs; [contradiction | discriminate Hlen]. }
  assert (Hfirst : exists p, get (hd VUndefined shaped) "date" = Ok (VStr p)).
  { destruct Hall; [contradiction | assumption]. }
  pose proof (Forall_last _ shaped VUndefined Hall Hshaped_ne) as Hlast.
  destruct Hfirst as [p1 Hfirst]. destruct Hlast as [p2 Hlast].
  destruct cur as [observed metric imperial wtext icon humidity speed degrees localized
                   ptype has].
  split.
  - intros country country_name area Hcountry Hcn Harea Hnull.
    unfold shapeForecastResponse, data.
    cbn [path get lookup String.eqb Ascii.eqb Bool.eqb rbind map_forecast].
    rewrite Hshaped. cbn [rbind]. rewrite Hname. cbn [rbind].
    rewrite Hcountry. cbn [rbind]. rewrite Hcn. cbn [rbind]. rewrite Harea. cbn [rbind].
    assert (Hopt : get_opt area "LocalizedName" = Ok VUndefined)
      by (destruct Hnull as [-> | ->]; reflexivity).
    rewrite Hopt. cbn [rbind]. cbn -[index last hd].
    rewrite index_first, (index_last shaped Hshaped_ne), Hfirst, Hlast. cbn [rbind].
    eexists. split; [reflexivity|]. split; reflexivity.
  - intros country Hcountry Hnull.
    unfold shapeForecastResponse, data.
    cbn [path get lookup String.eqb Ascii.eqb Bool.eqb rbind map_forecast].
    rewrite Hshaped. cbn [rbind]. rewrite Hname. cbn [rbind].
    rewrite Hcountry. cbn [rbind].
    destruct Hnull as [-> | ->]; reflexivity.
Qed.

Lemma shapeForecastResponse_region_is_optional_witness :
  exists doc,
    shapeForecastResponse NAIROBI_LAT NAIROBI_LON (VNum (of_Z 5))
      (VObj [("location", Incident.no_area_body);
             ("current", Typed.conditions (Scenario.observation None));
             ("forecast", VArr (map Typed.forecast Scenario.five_days))]) = Ok doc /\
    path doc ["location"; "region"] = Ok VUndefined /\
    path doc ["location"; "country"] = Ok (VStr "Kenya").
Proof.
  apply (shapeForecastResponse_region_is_optional NAIROBI_LAT NAIROBI_LON (VNum (of_Z 5))
           Incident.no_area_body (VStr "Nairobi") (Scenario.observation None)
           Scenario.five_days)
    with (country := VObj [("ID", VStr "KE"); ("LocalizedName", VStr "Kenya")])
         (area := VUndefined).
  - discriminate.
  - reflexivity.
  - reflexivity.
  - reflexivity.
  - reflexivity.
  - left. reflexivity.
Defined.

(** * Properties of the tool handlers *)


Lemma number_check_is_argument_error (e : error) :
  is_number_check e -> kind e = InvalidArgument /\ e <> InvalidLocationKey.
Proof.
  destruct e; cbn; intros H; try contradiction; (split; [reflexivity | discriminate]).
Qed.

Section Tools.

Variable net : provider.
Variable configured : bool.
Variables defaultLatitude defaultLongitude : value.

(** No error escapes a tool handler: whatever the arguments, the
    header defaults, the configuration and the provider, each of the two
    handlers returns a result, a document or an error text, and never
    throws. *)
Lemma handlers_never_throw (latitude longitude days : value) (w : world) :
  (exists r : tool_result,
     fst (get_accuweather_weather_forecast net configured defaultLatitude defaultLongitude
            latitude longitude days w) = Ok r) /\
  (exists r : tool_result,
     fst (get_accuweather_current_conditions net configured defaultLatitude defaultLongitude
            latitude longitude w) = Ok r).
Proof.
  split.
  - unfold get_accuweather_weather_forecast, caught. cbv zeta.
    match goal with |- context [match ?X with _ => _ end] => destruct X as [[r|e] w'] end;
      eexists; reflexivity.
  - unfold get_accuweather_current_conditions, caught. cbv zeta.
    match goal with |- context [match ?X with _ => _ end] => destruct X as [[r|e] w'] end;
      eexists; reflexivity.
Qed.



End Tools.



Section ToolErrors.

Variable net : provider.

(** A rejection of [Promise.all] is the rejection of one of its calls. *)
Lemma promise_all_err_inv {A B : Type} (a : M A) (b : M B) (w : world) (e : error) :
  fst (promise_all a b w) = Err e ->
  fst (a w) = Err e \/ fst (b (World (now w) (calls (snd (a w))))) = Err e.
Proof.
  unfold promise_all. destruct (a w) as [ra wa]. cbn [snd fst].
  destruct (b (World (now w) (calls wa))) as [rb wb]. cbn [fst].
  destruct ra as [x|e1], rb as [y|e2]; cbn [fst]; try discriminate;
    try (intros H; injection H as <-; auto).
  destruct (now wa <=? now wb)%N; cbn [fst]; intros H; injection H as <-; auto.
Qed.

Lemma getLocationKey_no_number_check (lat lon : value) (w : world) (e : error) :
  invalid_coordinate lat 90 = false -> invalid_coordinate lon 180 = false ->
  fst (getLocationKey net lat lon w) = Err e -> ~ is_number_check e.
Proof.
  intros Hlat Hlon Hrun Hcheck.
  apply (getLocationKey_checked_errors net lat lon w e Hlat Hlon Hrun).
  apply number_check_is_argument_error, Hcheck.
Qed.

Lemma getCurrentConditions_no_number_check (locationKey : value) (w : world) (e : error) :
  fst (getCurrentConditions net locationKey w) = Err e -> ~ is_number_check e.
Proof.
  intros Hrun Hcheck. destruct (invalid_key locationKey) eqn:Ekey.
  - unfold getCurrentConditions in Hrun. rewrite Ekey in Hrun.
    injection Hrun as <-. exact Hcheck.
  - apply (getCurrentConditions_checked_errors net locationKey w e Ekey Hrun).
    apply number_check_is_argument_error, Hcheck.
Qed.

Lemma getForecast_no_number_check (locationKey days : value) (w : world) (e : error) :
  invalid_days (default_param days (VNum (of_Z 5))) = false ->
  fst (getForecast net locationKey days w) = Err e -> ~ is_number_check e.
Proof.
  intros Hdays Hrun Hcheck. destruct (invalid_key locationKey) eqn:Ekey.
  - unfold getForecast in Hrun. rewrite Ekey in Hrun.
    injection Hrun as <-. exact Hcheck.
  - apply (getForecast_checked_errors net locationKey days w e Ekey Hdays Hrun).
    apply number_check_is_argument_error, Hcheck.
Qed.

Lemma getWeatherForecast_no_number_check (lat lon days : value) (w : world) (e : error) :
  invalid_coordinate lat 90 = false -> invalid_coordinate lon 180 = false ->
  invalid_days (default_param days (VNum (of_Z 5))) = false ->
  fst (getWeatherForecast net lat lon days w) = Err e -> ~ is_number_check e.
Proof.
  intros Hlat Hlon Hdays. unfold getWeatherForecast. cbv zeta.
  set (days' := default_param days (VNum (of_Z 5))) in *.
  unfold bind at 1.
  destruct (getLocationKey net lat lon w) as [[locationKey|e0] wk] eqn:Hk.
  - unfold bind at 1.
    destruct (promise_all (getCurrentConditions net locationKey)
                (getForecast net locationKey days') wk) as [[[current forecast]|e1] wp] eqn:Hall.
    + unfold_monad. unfold fetch.
      repeat (cbn [fst snd];
              try (let H := fresh in
                   intros H; (discriminate H || (injection H as <-; cbn; tauto)));
              try case_step).
    + cbn [fst]. intros H. injection H as <-.
      assert (Herr : fst (promise_all (getCurrentConditions net locationKey)
                            (getForecast net locationKey days') wk) = Err e1)
        by (rewrite Hall; reflexivity).
      apply promise_all_err_inv in Herr. destruct Herr as [Ha | Hb].
      * apply (getCurrentConditions_no_number_check locationKey wk e1 Ha).
      * refine (getForecast_no_number_check locationKey days' _ e1 _ Hb).
        unfold days'. rewrite default_param_twice. exact Hdays.
  - cbn [fst]. intros H. injection H as <-.
    apply (getLocationKey_no_number_check lat lon w e0 Hlat Hlon).
    rewrite Hk. reflexivity.
Qed.

(** X21. The forecast tool never answers with one of the client's own
    messages about the latitude, the longitude or the day count: its checks
    come first and are the same, so whenever the client is reached those
    three checks pass.  What the tool can still report from the client is
    everything else, the rejection of a resolved key included. *)
Theorem forecast_tool_never_reports_number_checks
    (configured : bool) (defaultLatitude defaultLongitude latitude longitude days : value)
    (w : world) (e : error) :
  fst (get_accuweather_weather_forecast net configured defaultLatitude defaultLongitude
         latitude longitude days w) = Ok (IsError (Caught e)) ->
  ~ is_number_check e.
Proof.
  unfold get_accuweather_weather_forecast, caught. cbv zeta.
  set (lat := nullish latitude (nullish defaultLatitude NAIROBI_LAT)).
  set (lon := nullish longitude (nullish defaultLongitude NAIROBI_LON)).
  set (days' := default_param days (VNum (of_Z 5))).
  destruct (invalid_coordinate lat 90) eqn:Elat; [discriminate|].
  destruct (invalid_coordinate lon 180) eqn:Elon; [discriminate|].
  destruct (invalid_days days') eqn:Edays; [discriminate|].
  destruct configured; [|discriminate]. cbn [negb].
  unfold bind at 1.
  destruct (getWeatherForecast net lat lon days' w) as [[data|e0] w'] eqn:Hrun.
  - unfold bind, lift, ret.
    destruct (shapeForecastResponse lat lon days' data) as [doc|e1] eqn:Hshape;
      [discriminate|].
    cbn [fst]. intros H. injection H as <-.
    destruct (only_type_errors_shapeForecastResponse lat lon days' data e1 Hshape)
      as [reading ->].
    intros Hcheck. exact Hcheck.
  - cbn [fst]. intros H. injection H as <-.
    apply (getWeatherForecast_no_number_check lat lon days' w e0 Elat Elon).
    + unfold days'. rewrite default_param_twice. exact Edays.
    + rewrite Hrun. reflexivity.
Qed.

(** X22. Whatever the arguments and the provider, the requests issued by
    one run of the current-conditions tool are a beginning of the sequence
    geoposition search, current conditions, both with the abort signal:
    never more than two, and never a forecast or a details request. *)
Theorem conditions_tool_requests_follow_plan
    (configured : bool) (defaultLatitude defaultLongitude latitude longitude : value)
    (w : world) :
  let lat := effective latitude defaultLatitude NAIROBI_LAT in
  let lon := effective longitude defaultLongitude NAIROBI_LON in
  exists (locationKey : value) (k : nat),
    calls (snd (get_accuweather_current_conditions net configured defaultLatitude
                  defaultLongitude latitude longitude w)) =
      (calls w ++ firstn k (conditions_plan lat lon locationKey))%list.
Proof.
  intros lat lon. unfold get_accuweather_current_conditions, caught. cbv zeta.
  fold (effective latitude defaultLatitude NAIROBI_LAT).
  fold (effective longitude defaultLongitude NAIROBI_LON). fold lat lon.
  destruct configured; cbn [negb];
    [|exists VUndefined, 0%nat; cbn; rewrite app_nil_r; reflexivity].
  unfold bind at 1.
  destruct (getLocationKey net lat lon w) as [[locationKey|e] wk] eqn:Hk.
  - pose proof (getLocationKey_ok_world net _ _ _ _ _ Hk) as Hwk.
    assert (Hcalls : calls wk = (calls w ++ [Request (GeopositionSearch lat lon) true])%list)
      by (rewrite Hwk; reflexivity).
    pose proof (getCurrentConditions_calls net locationKey wk) as Hc.
    unfold bind at 1.
    destruct (getCurrentConditions net locationKey wk) as [[current|e] wc].
    + cbn [snd] in Hc. unfold bind, lift, ret.
      destruct (shapeCurrentConditionsResponse lat lon current); cbn [snd];
        rewrite Hc, Hcalls;
        (destruct (invalid_key locationKey);
         [exists locationKey, 1%nat | exists locationKey, 2%nat];
         rewrite <- !app_assoc; reflexivity).
    + cbn [snd] in Hc |- *. rewrite Hc, Hcalls.
      destruct (invalid_key locationKey);
        [exists locationKey, 1%nat | exists locationKey, 2%nat];
        rewrite <- !app_assoc; reflexivity.
  - cbn [snd]. pose proof (getLocationKey_calls net lat lon w) as Hc.
    rewrite Hk in Hc. cbn [snd] in Hc. rewrite Hc.
    destruct (invalid_coordinate lat 90 || invalid_coordinate lon 180).
    + exists VUndefined, 0%nat. reflexivity.
    + exists VUndefined, 1%nat. reflexivity.
Qed.

End ToolErrors.

Lemma forecast_tool_never_reports_number_checks_witness :
  ~ is_number_check InvalidLocationKey.
Proof.
  apply (forecast_tool_never_reports_number_checks
           (Incident.resolving_to Incident.numeric_key_body) true
           VUndefined VUndefined VUndefined VUndefined VUndefined Scenario.start
           InvalidLocationKey).
  vm_compute. reflexivity.
Defined.

(** * The tools on a well-behaved provider *)

Section HappyPath.

Variable net : provider.

Lemma getLocationKey_typed
    (lat lon : value) (l : Typed.AccuWeatherLocation) (r : response) (w : world) :
  finite_in (-90) 90 lat -> finite_in (-180) 180 lon ->
  responds_in_time net (GeopositionSearch lat lon) r ->
  ok r = true ->
  json r = Some (Typed.location l) ->
  Typed.Key l <> "" ->
  getLocationKey net lat lon w =
    (Ok (VStr (Typed.Key l)),
     World (now w + latency (net (GeopositionSearch lat lon)) + body_ms r)%N
           (calls w ++ [Request (GeopositionSearch lat lon) true])).
Proof.
  intros Hlat Hlon Hnet Hok Hjson Hkey.
  rewrite (getLocationKey_parsed net lat lon _ r w Hlat Hlon Hnet Hok Hjson).
  destruct l as [k lname cid cname aid aname]. cbn [Typed.Key] in *.
  apply String.eqb_neq in Hkey.
  unfold_monad. cbn. rewrite Hkey. reflexivity.
Qed.

Lemma getCurrentConditions_first
    (locationKey first : value) (rest : list value) (r : response) (w : world) :
  valid_key locationKey ->
  responds_in_time net (CurrentConditions locationKey) r ->
  ok r = true ->
  json r = Some (VArr (first :: rest)) ->
  getCurrentConditions net locationKey w =
    (Ok first,
     World (now w + latency (net (CurrentConditions locationKey)) + body_ms r)%N
           (calls w ++ [Request (CurrentConditions locationKey) true])).
Proof.
  intros Hkey Hnet Hok Hjson. unfold getCurrentConditions.
  rewrite (invalid_key_valid _ Hkey). unfold_monad.
  rewrite (fetch_in_time _ _ _ w Hnet), Hok, Hjson. reflexivity.
Qed.

(** Shaping a bundle of the declared types: what the document takes from
    each part. *)
Lemma shapeForecastResponse_typed
    (lat lon days : value) (loc : Typed.AccuWeatherLocation)
    (cur : Typed.AccuWeatherCurrentConditions)
    (fs : list Typed.AccuWeatherForecast) :
  fs <> [] ->
  exists (doc : value) (shaped : list value),
    shapeForecastResponse lat lon days (Typed.bundle loc cur fs) = Ok doc /\
    get doc "forecast" = Ok (VArr shaped) /\
    List.length shaped = List.length fs /\
    path doc ["period"; "days"] = Ok days /\
    path doc ["location"; "name"] = Ok (VStr (Typed.LocalizedName loc)) /\
    path doc ["current"; "temperature"] =
      Ok (VNum (Typed.Value (Typed.Temperature_Metric cur))).
Proof.
  intros Hne.
  destruct (map_result_shape_day_total fs) as (shaped & Hshaped & Hlen & Hall).
  assert (Hshaped_ne : shaped <> []).
  { intros ->. destruct fs; [contradiction | discriminate Hlen]. }
  assert (Hfirst : exists p, get (hd VUndefined shaped) "date" = Ok (VStr p)).
  { destruct Hall; [contradiction | assumption]. }
  pose proof (Forall_last _ shaped VUndefined Hall Hshaped_ne) as Hlast.
  destruct Hfirst as [p1 Hfirst]. destruct Hlast as [p2 Hlast].
  destruct loc as [k lname cid cname aid aname].
  destruct cur as [observed metric imperial wtext icon humidity speed degrees localized
                   ptype has].
  unfold shapeForecastResponse, Typed.bundle.
  cbn [get lookup String.eqb Ascii.eqb Bool.eqb rbind map_forecast].
  rewrite Hshaped. cbn [rbind]. cbn -[index last hd].
  rewrite index_first, (index_last shaped Hshaped_ne), Hfirst, Hlast. cbn [rbind].
  eexists. exists shaped. split; [reflexivity|].
  repeat split. exact Hlen.
Qed.

(** X23. The forecast tool on a provider that behaves.  With a client
    configured, coordinates in range and a whole day count [N] from 1 to
    15, when the four requests are answered in time with data of the
    declared types (a location with a non-empty key, at least one
    observation, at least one daily forecast, the location details), the
    tool returns a document: its forecast has the smaller of [N] and the
    provider's number of entries, its [period.days] is [N] as asked, its
    location name is the one of the details reply (not of the geoposition
    reply), and its temperature is the metric one of the first
    observation. *)
Theorem forecast_tool_on_good_replies
    (defaultLatitude defaultLongitude latitude longitude days : value) (N : Z)
    (found details : Typed.AccuWeatherLocation)
    (observed : Typed.AccuWeatherCurrentConditions) (more : list value)
    (fs : list Typed.AccuWeatherForecast)
    (rg rc rf rd : response) (w : world) :
  let lat := effective latitude defaultLatitude NAIROBI_LAT in
  let lon := effective longitude defaultLongitude NAIROBI_LON in
  let days' := default_param days (VNum (of_Z 5)) in
  let locationKey := VStr (Typed.Key found) in
  finite_in (-90) 90 lat -> finite_in (-180) 180 lon ->
  1 <= N <= 15 -> is_integer N days' ->
  responds_in_time net (GeopositionSearch lat lon) rg ->
  ok rg = true -> json rg = Some (Typed.location found) -> Typed.Key found <> "" ->
  responds_in_time net (CurrentConditions locationKey) rc ->
  ok rc = true -> json rc = Some (VArr (Typed.conditions observed :: more)) ->
  responds_in_time net (DailyForecast days' locationKey) rf ->
  ok rf = true ->
  json rf = Some (VObj [("DailyForecasts", VArr (map Typed.forecast fs))]) ->
  fs <> [] ->
  answer (net (LocationDetails locationKey)) = Responds rd ->
  ok rd = true -> json rd = Some (Typed.location details) ->
  exists (doc : value) (shaped : list value),
    fst (get_accuweather_weather_forecast net true defaultLatitude defaultLongitude
           latitude longitude days w) = Ok (Content doc) /\
    get doc "forecast" = Ok (VArr shaped) /\
    Z.of_nat (List.length shaped) = Z.min N (Z.of_nat (List.length fs)) /\
    path doc ["period"; "days"] = Ok days' /\
    path doc ["location"; "name"] = Ok (VStr (Typed.LocalizedName details)) /\
    path doc ["current"; "temperature"] =
      Ok (VNum (Typed.Value (Typed.Temperature_Metric observed))).
Proof.
  intros lat lon days' locationKey Hlat Hlon HN Hint Hg Hgok Hgjson Hkey
         Hc Hcok Hcjson Hf Hfok Hfjson Hne Hd Hdok Hdjson.
  assert (Hvalid : valid_key locationKey).
  { exists (Typed.Key found). split; [reflexivity | exact Hkey]. }
  pose proof (is_integer_finite_in 1 15 N days' HN Hint) as Hin.
  set (wk := World (now w + latency (net (GeopositionSearch lat lon)) + body_ms rg)%N
                   (calls w ++ [Request (GeopositionSearch lat lon) true])).
  pose proof (getLocationKey_typed lat lon found rg w Hlat Hlon Hg Hgok Hgjson Hkey) as Hk.
  fold locationKey wk in Hk.
  pose proof (getCurrentConditions_first locationKey _ more rc wk Hvalid Hc Hcok Hcjson)
    as Ha.
  pose proof (getForecast_success net locationKey days' rf _ (map Typed.forecast fs)
                (World (now wk) (calls wk ++ [Request (CurrentConditions locationKey) true]))
                Hvalid Hin Hf Hfok Hfjson eq_refl) as Hb.
  assert (Hslice : slice (map Typed.forecast fs) (number_of days') =
                   map Typed.forecast (firstn (Z.to_nat N) fs)).
  { destruct Hint as [q [Eq Hq]]. rewrite Eq. cbn [number_of].
    rewrite (slice_whole _ q N Hq) by lia. apply firstn_map. }
  rewrite Hslice in Hb.
  assert (Hall : exists wp,
             promise_all (getCurrentConditions net locationKey)
               (getForecast net locationKey (default_param days' (VNum (of_Z 5)))) wk =
             (Ok (Typed.conditions observed,
                  VArr (map Typed.forecast (firstn (Z.to_nat N) fs))), wp)).
  { unfold days'. rewrite default_param_twice. fold days'.
    unfold promise_all. rewrite Ha. cbn [now calls]. rewrite Hb. eexists. reflexivity. }
  destruct Hall as [wp Hall].
  pose proof (getWeatherForecast_details_unbounded net lat lon days' locationKey _ _ _
                w wk wp rd Hk Hall Hd Hdok Hdjson) as Hrun.
  assert (Hcut : firstn (Z.to_nat N) fs <> []).
  { destruct fs as [|f fs']; [contradiction|].
    destruct (Z.to_nat N) eqn:E; [lia | discriminate]. }
  destruct (shapeForecastResponse_typed lat lon days' details observed
              (firstn (Z.to_nat N) fs) Hcut)
    as (doc & shaped & Hshape & Hforecast & Hlen & Hdays & Hname & Htemp).
  exists doc, shaped.
  repeat split; try assumption.
  - unfold get_accuweather_weather_forecast, caught. cbv zeta.
    fold (effective latitude defaultLatitude NAIROBI_LAT).
    fold (effective longitude defaultLongitude NAIROBI_LON). fold lat lon days'.
    destruct (valid_coordinates lat lon Hlat Hlon) as [-> ->].
    rewrite (invalid_days_inside _ Hin). cbn [negb].
    unfold bind at 1. rewrite Hrun.
    unfold bind, lift, ret. fold (Typed.bundle details observed (firstn (Z.to_nat N) fs)).
    rewrite Hshape. reflexivity.
  - rewrite Hlen, length_firstn. lia.
Qed.

End HappyPath.

Lemma forecast_tool_on_good_replies_witness :
  exists (doc : value) (shaped : list value),
    fst (get_accuweather_weather_forecast (Scenario.healthy Scenario.three_days) true
           VUndefined VUndefined VUndefined VUndefined VUndefined Scenario.start) =
      Ok (Content doc) /\
    get doc "forecast" = Ok (VArr shaped) /\
    Z.of_nat (List.length shaped) = Z.min 5 (Z.of_nat (List.length Scenario.three_days)) /\
    path doc ["period"; "days"] = Ok (default_param VUndefined (VNum (of_Z 5))) /\
    path doc ["location"; "name"] = Ok (VStr (Typed.LocalizedName Scenario.nairobi)) /\
    path doc ["current"; "temperature"] =
      Ok (VNum (Typed.Value (Typed.Temperature_Metric (Scenario.observation None)))).
Proof.
  apply (forecast_tool_on_good_replies (Scenario.healthy Scenario.three_days)
           VUndefined VUndefined VUndefined VUndefined VUndefined 5
           Scenario.nairobi Scenario.nairobi (Scenario.observation None) []
           Scenario.three_days
           (Scenario.ok_json (Typed.location Scenario.nairobi))
           (Scenario.ok_json (VArr [Typed.conditions (Scenario.observation None)]))
           (Scenario.ok_json (Scenario.forecasts_body Scenario.three_days))
           (Scenario.ok_json (Typed.location Scenario.nairobi))
           Scenario.start).
  - exists (-12864 # 10000). split; [reflexivity|]. split; discriminate.
  - exists (368172 # 10000). split; [reflexivity|]. split; discriminate.
  - lia.
  - exists (inject_Z 5). split; reflexivity.
  - split; reflexivity.
  - reflexivity.
  - reflexivity.
  - discriminate.
  - split; reflexivity.
  - reflexivity.
  - reflexivity.
  - split; reflexivity.
  - reflexivity.
  - reflexivity.
  - discriminate.
  - reflexivity.
  - reflexivity.
  - reflexivity.
Defined.

Section ConditionsTool.

Variable net : provider.

Lemma shapeCurrentConditionsResponse_typed
    (lat lon : value) (c : Typed.AccuWeatherCurrentConditions) :
  exists doc : value,
    shapeCurrentConditionsResponse lat lon (Typed.conditions c) = Ok doc /\
    path doc ["location"; "latitude"] = Ok lat /\
    path doc ["location"; "longitude"] = Ok lon /\
    path doc ["current"; "temperature"] =
      Ok (VNum (Typed.Value (Typed.Temperature_Metric c))) /\
    path doc ["current"; "has_precipitation"] = Ok (VBool (Typed.HasPrecipitation c)).
Proof.
  destruct c as [observed metric imperial wtext icon humidity speed degrees localized
                 ptype has].
  destruct ptype as [s|]; eexists; (split; [reflexivity|]); repeat split.
Qed.

(** X24. The current-conditions tool on a provider that behaves.  With a
    client configured and coordinates in range, when the geoposition search
    and the conditions request are answered in time with data of the
    declared types, the tool returns a document that echoes the coordinates
    used and carries the metric temperature and the precipitation flag of
    the first observation, after exactly two requests. *)
Theorem conditions_tool_on_good_replies
    (defaultLatitude defaultLongitude latitude longitude : value)
    (found : Typed.AccuWeatherLocation)
    (observed : Typed.AccuWeatherCurrentConditions) (more : list value)
    (rg rc : response) (w : world) :
  let lat := effective latitude defaultLatitude NAIROBI_LAT in
  let lon := effective longitude defaultLongitude NAIROBI_LON in
  let locationKey := VStr (Typed.Key found) in
  let run := get_accuweather_current_conditions net true defaultLatitude defaultLongitude
               latitude longitude w in
  finite_in (-90) 90 lat -> finite_in (-180) 180 lon ->
  responds_in_time net (GeopositionSearch lat lon) rg ->
  ok rg = true -> json rg = Some (Typed.location found) -> Typed.Key found <> "" ->
  responds_in_time net (CurrentConditions locationKey) rc ->
  ok rc = true -> json rc = Some (VArr (Typed.conditions observed :: more)) ->
  exists doc : value,
    fst run = Ok (Content doc) /\
    calls (snd run) = (calls w ++ conditions_plan lat lon locationKey)%list /\
    path doc ["location"; "latitude"] = Ok lat /\
    path doc ["location"; "longitude"] = Ok lon /\
    path doc ["current"; "temperature"] =
      Ok (VNum (Typed.Value (Typed.Temperature_Metric observed))) /\
    path doc ["current"; "has_precipitation"] =
      Ok (VBool (Typed.HasPrecipitation observed)).
Proof.
  intros lat lon locationKey run Hlat Hlon Hg Hgok Hgjson Hkey Hc Hcok Hcjson.
  assert (Hvalid : valid_key locationKey).
  { exists (Typed.Key found). split; [reflexivity | exact Hkey]. }
  pose proof (getLocationKey_typed net lat lon found rg w Hlat Hlon Hg Hgok Hgjson Hkey)
    as Hk.
  fold locationKey in Hk.
  destruct (shapeCurrentConditionsResponse_typed lat lon observed)
    as (doc & Hshape & Hla & Hlo & Htemp & Hhas).
  assert (Hrun : run =
            (Ok (Content doc),
             World (now w + latency (net (GeopositionSearch lat lon)) + body_ms rg
                    + latency (net (CurrentConditions locationKey)) + body_ms rc)%N
                   ((calls w ++ [Request (GeopositionSearch lat lon) true])
                    ++ [Request (CurrentConditions locationKey) true]))).
  { unfold run, get_accuweather_current_conditions, caught. cbv zeta.
    fold (effective latitude defaultLatitude NAIROBI_LAT).
    fold (effective longitude defaultLongitude NAIROBI_LON). fold lat lon.
    cbn [negb]. unfold bind at 1. rewrite Hk. unfold bind at 1.
    rewrite (getCurrentConditions_first net locationKey _ more rc _ Hvalid Hc Hcok Hcjson).
    unfold bind, lift, ret. rewrite Hshape. reflexivity. }
  exists doc. rewrite Hrun. cbn [fst snd calls]. repeat split; try assumption.
  unfold conditions_plan. rewrite <- app_assoc. reflexivity.
Qed.

End ConditionsTool.

Lemma conditions_tool_on_good_replies_witness :
  exists doc : value,
    fst (get_accuweather_current_conditions (Scenario.healthy Scenario.five_days) true
           VUndefined VUndefined VUndefined VUndefined Scenario.start) = Ok (Content doc) /\
    calls (snd (get_accuweather_current_conditions (Scenario.healthy Scenario.five_days) true
                  VUndefined VUndefined VUndefined VUndefined Scenario.start)) =
      ([] ++ conditions_plan NAIROBI_LAT NAIROBI_LON (VStr "224758"))%list /\
    path doc ["location"; "latitude"] = Ok NAIROBI_LAT /\
    path doc ["location"; "longitude"] = Ok NAIROBI_LON /\
    path doc ["current"; "temperature"] = Ok (VNum (of_Z 21)) /\
    path doc ["current"; "has_precipitation"] = Ok (VBool false).
Proof.
  apply (conditions_tool_on_good_replies (Scenario.healthy Scenario.five_days)
           VUndefined VUndefined VUndefined VUndefined
           Scenario.nairobi (Scenario.observation None) []
           (Scenario.ok_json (Typed.location Scenario.nairobi))
           (Scenario.ok_json (VArr [Typed.conditions (Scenario.observation None)]))
           Scenario.start).
  - exists (-12864 # 10000). split; [reflexivity|]. split; discriminate.
  - exists (368172 # 10000). split; [reflexivity|]. split; discriminate.
  - split; reflexivity.
  - reflexivity.
  - reflexivity.
  - discriminate.
  - split; reflexivity.
  - reflexivity.
  - reflexivity.
Defined.
